(** * Client management: mock server and browser services

    A shallow embedding of the JavaScript sources

    - [frontend_client_app/server.js]                      (module [Server])
    - [client-management-ui/src/services/api.js]           (module [Api])
    - [client-management-ui/src/pages/ClientFormPage.js]   (module [ClientFormPage])
    - [client-management-ui/src/pages/ClientListPage.js]   (module [ClientListPage])
    - [client-management-ui/src/pages/ClientDetailPage.js] (module [ClientDetailPage])

    with the store and the collection route of json-server behind them
    (modules [Server] and [Store]), followed by the properties of the
    client-record contract that these sources do, or do not, satisfy. *)

From Stdlib Require Import Ascii.
From stdpp Require Import gmap strings list pretty.

Local Open Scope string_scope.
Local Open Scope Z_scope.

(** ** JavaScript values *)

Module Js.

(** The values held by the fields of a client document or of a reference
    entry: the PRD's client schema has string and boolean fields only, and
    [null] for a cleared one.  [undefined] (a missing property) is the
    [None] of an [option value]. *)
Inductive value : Type :=
| VNull
| VBool (b : bool)
| VStr (s : string).

#[global] Instance value_eq_dec : EqDecision value.
Proof. solve_decision. Defined.

(** A plain object used as a record of fields. *)
Abbreviation obj := (gmap string value).

(** JavaScript truthiness ([!x] is its negation). *)
Definition truthy (x : option value) : bool :=
  match x with
  | None | Some VNull => false
  | Some (VBool b) => b
  | Some (VStr s) => negb (String.eqb s "")
  end.

(** [a || b] *)
Definition or (a b : option value) : option value :=
  if truthy a then a else b.

(** [Object.assign(target, source)] and the spread [{...target, ...source}]:
    the keys of [source] win, every other key of [target] stays. *)
Definition assign (target source : obj) : obj := source ∪ target.

(** [new Error(message)] *)
Inductive error : Type := Error (message : string).

Definition message (e : error) : string := let 'Error m := e in m.

(** The system clock: [reading n] is what the [n]-th call of
    [new Date().toISOString()] returns, [reads] counts the calls made. *)
Record clock : Type := Clock { reading : nat → string; reads : nat }.

Definition new_Date_toISOString (c : clock) : string * clock :=
  (reading c (reads c), Clock (reading c) (S (reads c))).

(** [parseInt(s, 10)]: leading white space, an optional sign, then the
    longest run of decimal digits; [None] is [NaN]. *)
Definition digit (a : ascii) : option Z :=
  let n := Z.of_N (N_of_ascii a) in
  if bool_decide (48 ≤ n ≤ 57) then Some (n - 48) else None.

Fixpoint digits (acc : option Z) (s : string) : option Z :=
  match s with
  | String a s' =>
      match digit a with
      | Some d => digits (Some (10 * default 0 acc + d)) s'
      | None => acc
      end
  | EmptyString => acc
  end.

Definition white (a : ascii) : bool :=
  let n := N_of_ascii a in
  bool_decide (n = 32 ∨ 9 ≤ n ≤ 13)%N.

Fixpoint skip_white (s : string) : string :=
  match s with
  | String a s' => if white a then skip_white s' else s
  | EmptyString => s
  end.

Definition parseInt (s : string) : option Z :=
  match skip_white s with
  | String "-" s' => Z.opp <$> digits None s'
  | String "+" s' => digits None s'
  | s' => digits None s'
  end.

(** [array.slice(start, end)] on whole numbers (lodash's [slice] agrees): a
    negative index counts from the end, each index is held within the
    array, and an end before the start gives nothing. *)
Definition slice {A} (start finish : Z) (l : list A) : list A :=
  let len := Z.of_nat (length l) in
  let within (i : Z) : Z :=
    if bool_decide (i < 0) then Z.max (len + i) 0 else Z.min i len in
  take (Z.to_nat (within finish - within start)) (drop (Z.to_nat (within start)) l).

End Js.

Import Js.

(** ** The client collection and the HTTP messages *)

(** A client document: its identifier, and its other fields by name.  The
    identifier is a string token (a UUID in the PRD), which is also what a
    route parameter is: [client] and the module [Server] describe a store
    whose identifiers are all strings.  json-server also generates numbers
    as identifiers; the store with those is the module [Store]. *)
Record client : Type := Client { id : string; attrs : obj }.

#[global] Instance client_eq_dec : EqDecision client.
Proof. solve_decision. Defined.

(** A reference entry ({code, name} or {code, display_text}) and the
    catalogs of [GET /reference-data/], by kind. *)
Abbreviation reference_data := (gmap string (list obj)).

(** The member [error] of an error body: the string of server.js's 404
    ([{error: 'CLIENT_NOT_FOUND'}]) or the PRD's object with a [message]. *)
Inductive error_member : Type :=
| ErrorCode (code : string)
| ErrorObject (message : option string).

(** The JSON documents that travel over the API: objects and arrays.  The
    literal [null] as a whole body is not among them. *)
Inductive json : Type :=
| JClient (c : client)
| JClients (cs : list client)
| JReference (r : reference_data)
| JOther (error : option error_member).   (* {} or {error: ...} *)

(** The requests that services/api.js issues. *)
Inductive request : Type :=
| ListClients (query : list (string * string))   (* GET    /clients?query   *)
| GetReferenceData                               (* GET    /reference-data/ *)
| GetClient (clientId : string)                  (* GET    /clients/:id     *)
| PostClient (data : obj)                        (* POST   /clients         *)
| PatchClient (clientId : string) (data : obj)   (* PATCH  /clients/:id     *)
| DeleteClient (clientId : string).              (* DELETE /clients/:id     *)

(** A response: status, the [X-Total-Count] header when present, and the
    body ([None]: no body, or one that is not JSON). *)
Record response : Type :=
  Response { status : Z; total_count : option string; body : option json }.

(** [response.ok] *)
Definition ok (r : response) : bool := bool_decide (200 ≤ status r ≤ 299).

(** ** server.js *)

Module Server.

(** [db.get('clients').find({ id: clientId }).value()]: the first document
    of the collection whose id is the route parameter. *)
Definition find (clientId : string) (clients : list client) : option client :=
  List.find (λ c, bool_decide (id c = clientId)) clients.

(** [db.get('clients').find({ id: clientId }).assign(source).write()]: the
    document found is updated in place, the collection keeps its order. *)
Fixpoint find_assign (clientId : string) (source : obj) (clients : list client)
  : list client :=
  match clients with
  | [] => []
  | c :: cs =>
      if bool_decide (id c = clientId)
      then Client (id c) (assign (attrs c) source) :: cs
      else c :: find_assign clientId source cs
  end.

(** The state of the server process: the [clients] collection of db.json
    and the server's clock. *)
Record state : Type := State { clients : list client; time : clock }.

(** The custom route [server.delete('/api/v1/clients/:id', ...)]. *)
Definition soft_delete (clientId : string) (st : state) : response * state :=
  match find clientId (clients st) with
  | Some _ =>
      let '(now, time') := new_Date_toISOString (time st) in
      let source : obj :=
        {[ "status_code" := VStr "deleted"; "deleted_at" := VStr now ]} in
      (Response 204 None None,
       State (find_assign clientId source (clients st)) time')
  | None =>
      (Response 404 None (Some (JOther (Some (ErrorCode "CLIENT_NOT_FOUND")))), st)
  end.

(** What [jsonServer.router('db.json')] contributes.  json-server is a
    dependency, not part of these sources: its resource routes are modelled
    below after its documented REST behaviour, and what that leaves open is
    taken as a parameter: the identifier generator of POST, the filtering
    and paging of the collection route, and the stored reference data. *)
Record json_server : Type := JsonServer {
  createId : list client → string;
  list_route : list (string * string) → list client → response;
  reference_route : response }.

(** The identifier of an inserted document: the body's own when it has one,
    a generated one otherwise (the form never sends one). *)
Definition insert_id (js : json_server) (data : obj) (cs : list client) : string :=
  match data !! "id" with
  | Some (VStr s) => if bool_decide (s = "") then createId js cs else s
  | _ => createId js cs
  end.

(** [server.use(router)]: the plain resource routes of json-server.  GET by
    id answers the document or 404 with [{}]; POST appends the body under
    its identifier, refusing an identifier already in use; PATCH merges the
    body into the document and keeps its identifier; DELETE removes the
    document (never reached: see [app]). *)
Definition router (js : json_server) (req : request) (st : state) : response * state :=
  match req with
  | ListClients query => (list_route js query (clients st), st)
  | GetReferenceData => (reference_route js, st)
  | GetClient clientId =>
      match find clientId (clients st) with
      | Some c => (Response 200 None (Some (JClient c)), st)
      | None => (Response 404 None (Some (JOther None)), st)
      end
  | PostClient data =>
      let c := Client (insert_id js data (clients st)) (delete "id" data) in
      match find (id c) (clients st) with
      | Some _ => (Response 500 None None, st)
      | None => (Response 201 None (Some (JClient c)), State (clients st ++ [c]) (time st))
      end
  | PatchClient clientId data =>
      let clients' := find_assign clientId (delete "id" data) (clients st) in
      match find clientId clients' with
      | Some c => (Response 200 None (Some (JClient c)), State clients' (time st))
      | None => (Response 404 None (Some (JOther None)), st)
      end
  | DeleteClient clientId =>
      (Response 200 None (Some (JOther None)),
       State (filter (λ c, id c ≠ clientId) (clients st)) (time st))
  end.

(** The application: the custom route is registered before the rewriter and
    the router, and answers every [DELETE /api/v1/clients/:id] itself; every
    other request falls through to the router (routes.json, which maps the
    [/api/v1] paths onto the resources, is not among the sources). *)
Definition app (js : json_server) (req : request) (st : state) : response * state :=
  match req with
  | DeleteClient clientId => soft_delete clientId st
  | _ => router js req st
  end.

(** *** The collection route of json-server

    [GET /clients?query], as json-server's [list] answers it, for the
    queries that these sources send: [_page], [_limit] and filters on
    fields.  Its other parameters ([q], [_start], [_end], [_sort],
    [_order], [_embed], [_expand], [callback], [_], the operators [_lte],
    [_gte], [_ne], [_like], paths and repeated keys) are left out. *)

(** The parameters that [list] takes out of the query before it filters. *)
Definition taken_out (key : string) : bool :=
  bool_decide (key ∈ ["q"; "_start"; "_end"; "_sort"; "_order"; "_limit";
                      "_embed"; "_expand"]).

Fixpoint ends_with (suffix s : string) : bool :=
  bool_decide (s = suffix)
  || match s with
     | String _ s' => ends_with suffix s'
     | EmptyString => false
     end.

Definition name_char (a : ascii) : bool :=
  let n := N_of_ascii a in
  bool_decide ((48 ≤ n ≤ 57) ∨ (65 ≤ n ≤ 90) ∨ (97 ≤ n ≤ 122) ∨ n = 95 ∨ n = 45)%N.

Fixpoint name_chars (s : string) : bool :=
  match s with
  | String a s' => name_char a && name_chars s'
  | EmptyString => true
  end.

(** A key of the part of [list] described here: [_page], [_limit], or the
    plain name of a field. *)
Definition plain_key (key : string) : bool :=
  bool_decide (key = "_page") || bool_decide (key = "_limit")
  || (name_chars key
      && negb (taken_out key)
      && negb (bool_decide (key = "callback")) && negb (bool_decide (key = "_"))
      && negb (ends_with "_lte" key) && negb (ends_with "_gte" key)
      && negb (ends_with "_ne" key) && negb (ends_with "_like" key)).

Definition plain (query : list (string * string)) : bool :=
  bool_decide (NoDup (map fst query)) && forallb (λ p, plain_key (fst p)) query.

(** [req.query[key]] *)
Definition param (key : string) (query : list (string * string)) : option string :=
  snd <$> List.find (λ p, bool_decide (fst p = key)) query.

(** [_.has(element, key)] and [_.get(element, key).toString()], [None] for
    a field that is missing or [null]. *)
Definition has_field (key : string) (c : client) : bool :=
  bool_decide (key = "id") || bool_decide (is_Some (attrs c !! key)).

Definition rendered (key : string) (c : client) : option string :=
  if bool_decide (key = "id") then Some (id c)
  else match attrs c !! key with
       | Some (VStr s) => Some s
       | Some (VBool b) => Some (if b then "true" else "false")
       | _ => None
       end.

(** The filters: every parameter that is not taken out and that names a
    field of some document; one that no document has is dropped. *)
Definition filters (query : list (string * string)) (cs : list client)
  : list (string * string) :=
  List.filter (λ p, negb (taken_out (fst p)) && existsb (has_field (fst p)) cs) query.

(** The documents that pass every filter: the field, as a string, is the
    value asked for. *)
Definition filtered (query : list (string * string)) (cs : list client) : list client :=
  List.filter
    (λ c, forallb (λ p, bool_decide (rendered (fst p) c = Some (snd p))) (filters query cs))
    cs.

(** [_page = parseInt(_page, 10); _page = _page >= 1 ? _page : 1] *)
Definition page_number (_page : string) : Z :=
  match parseInt _page with
  | Some n => if bool_decide (1 ≤ n) then n else 1
  | None => 1
  end.

(** [_limit = parseInt(_limit, 10) || 10] *)
Definition per_page (_limit : option string) : Z :=
  match parseInt (default "undefined" _limit) with
  | Some n => if bool_decide (n = 0) then 10 else n
  | None => 10
  end.

(** "Slice result": with [_page], the page of [per_page] documents; else
    with [_limit], the first [_limit] documents ([NaN] gives none); else all
    of them.  An empty parameter counts as a missing one. *)
Definition sliced (query : list (string * string)) (matching : list client) : list client :=
  let _page := default "" (param "_page" query) in
  let _limit := param "_limit" query in
  if negb (String.eqb _page "") then
    slice ((page_number _page - 1) * per_page _limit)
          (page_number _page * per_page _limit) matching
  else if negb (String.eqb (default "" _limit) "") then
    slice 0 (default 0 (parseInt (default "" _limit))) matching
  else matching.

(** The header [X-Total-Count], set when the result is sliced. *)
Definition counted (query : list (string * string)) (matching : list client)
  : option string :=
  if negb (String.eqb (default "" (param "_page" query)) "")
     || negb (String.eqb (default "" (param "_limit" query)) "")
  then Some (pretty (Z.of_nat (length matching)))
  else None.

Definition plural_list (query : list (string * string)) (cs : list client)
  : option response :=
  if plain query then
    Some (Response 200 (counted query (filtered query cs))
            (Some (JClients (sliced query (filtered query cs)))))
  else None.

(** A json-server whose collection route is the one described, wherever
    that is described. *)
Definition paging (js : json_server) : Prop :=
  ∀ query cs r, plural_list query cs = Some r → list_route js query cs = r.

End Server.

(** ** The store with json-server's identifiers *)

Module Store.

(** json-server gives a new document the identifier 1 when the collection
    is empty, the greatest identifier plus one when that is a number, and a
    random string otherwise: a stored identifier is a string or a number. *)
Inductive stored_id : Type :=
| IdString (s : string)
| IdNumber (n : Z).

#[global] Instance stored_id_eq_dec : EqDecision stored_id.
Proof. solve_decision. Defined.

Record document : Type := Document { doc_id : stored_id; fields : obj }.

(** A client of the typed store, as a document. *)
Definition of_client (c : client) : document := Document (IdString (id c)) (attrs c).

(** [doc.id.toString()] *)
Definition id_toString (i : stored_id) : string :=
  match i with
  | IdString s => s
  | IdNumber n => pretty n
  end.

(** server.js: [db.get('clients').find({ id: clientId })], where [clientId]
    is the route parameter, a string: the match is strict, so a number is
    never the string. *)
Definition find (clientId : string) (docs : list document) : option document :=
  List.find (λ d, bool_decide (doc_id d = IdString clientId)) docs.

(** json-server's [getById], behind [GET /clients/:id]:
    [doc.id.toString() === id.toString()]. *)
Definition getById (clientId : string) (docs : list document) : option document :=
  List.find (λ d, bool_decide (id_toString (doc_id d) = clientId)) docs.

Fixpoint find_assign (clientId : string) (source : obj) (docs : list document)
  : list document :=
  match docs with
  | [] => []
  | d :: ds =>
      if bool_decide (doc_id d = IdString clientId)
      then Document (doc_id d) (assign (fields d) source) :: ds
      else d :: find_assign clientId source ds
  end.

(** The custom route [server.delete('/api/v1/clients/:id', ...)] at the time
    [now]: the status it sends and the store it leaves. *)
Definition soft_delete (now : string) (clientId : string) (docs : list document)
  : Z * list document :=
  match find clientId docs with
  | Some _ =>
      (204,
       find_assign clientId
         {[ "status_code" := VStr "deleted"; "deleted_at" := VStr now ]} docs)
  | None => (404, docs)
  end.

(** [GET /clients/:id] *)
Definition show (clientId : string) (docs : list document) : Z * option document :=
  match getById clientId docs with
  | Some d => (200, Some d)
  | None => (404, None)
  end.

End Store.

(** ** services/api.js *)

Module Api.

(** How an [async] function ends. *)
Inductive outcome (A : Type) : Type :=
| Returned (a : A)
| Thrown (e : error).
Arguments Returned {A} a.
Arguments Thrown {A} e.

(** [response.json()] rejects when there is no JSON body (the text of the
    rejection is the browser's). *)
Definition response_json (r : response) : outcome json :=
  match body r with
  | Some j => Returned j
  | None => Thrown (Error "Unexpected end of JSON input")
  end.

(** [errorBody.error?.message]: a string member [error] has no [message],
    and neither has a body without the member. *)
Definition error_message (errorBody : json) : option string :=
  match errorBody with
  | JOther (Some (ErrorObject m)) => m
  | _ => None
  end.

(** [s || fallback] on strings *)
Definition or_else (s : option string) (fallback : string) : string :=
  match s with
  | Some (String a s') => String a s'
  | _ => fallback
  end.

(** The page of clients that [getClients] returns; [totalCount] is [None]
    when it is [undefined]. *)
Record clients_page : Type := ClientsPage { data : json; totalCount : option Z }.

(** [data.length] *)
Definition length_of (data : json) : option Z :=
  match data with
  | JClients cs => Some (Z.of_nat (length cs))
  | _ => None
  end.

(** [parseInt(totalCount, 10) || data.length] *)
Definition parsed_or_length (totalCount : option string) (data : json) : option Z :=
  match parseInt (default "null" totalCount) with
  | Some n => if bool_decide (n = 0) then length_of data else Some n
  | None => length_of data
  end.

(** [{ success: true }] and [{ success: true, data }] *)
Record deleted : Type := Deleted { success : bool; deleted_data : option json }.

(** Asynchronous code over a state of type [S] (the backend behind [fetch],
    the clock): [await], [throw] and [try/catch]. *)
Definition async (S A : Type) : Type := S → outcome A * S.

Definition ret {S A} (a : A) : async S A := λ s, (Returned a, s).

Definition throw {S A} (e : error) : async S A := λ s, (Thrown e, s).

Definition settle {S A} (o : outcome A) : async S A := λ s, (o, s).

Definition await {S A B} (m : async S A) (k : A → async S B) : async S B :=
  λ s, match m s with
       | (Returned a, s') => k a s'
       | (Thrown e, s') => (Thrown e, s')
       end.

Definition try_catch {S A} (m : async S A) (handler : error → async S A) : async S A :=
  λ s, match m s with
       | (Returned a, s') => (Returned a, s')
       | (Thrown e, s') => handler e s'
       end.

Notation "'let!' x := m 'in' k" := (await m (λ x, k))
  (at level 10, x name, m at level 100, k at level 200, only parsing).

Section Fetch.

(** [fetch]: the backend, holding a state of type [S]; it either rejects
    (the server cannot be reached) or resolves with a response. *)
Context {S : Type}.
Variable fetch : request → async S response.

Definition http_error (r : response) : error :=
  Error ("HTTP error! status: " +:+ pretty (status r)).

Definition http_error_message (r : response) (m : string) : error :=
  Error ("HTTP error! status: " +:+ pretty (status r) +:+ ", message: " +:+ m).

(** [{ data: [], totalCount: 0 }] *)
Definition no_clients : clients_page := ClientsPage (JClients []) (Some 0).

(** [console.error] is not modelled: it leaves nothing with the caller. *)
Definition getClients (params : list (string * string)) : async S clients_page :=
  try_catch
    (let! response := fetch (ListClients params) in
     if negb (ok response) then throw (http_error response)
     else
       let totalCount := total_count response in
       let! data := settle (response_json response) in
       ret (ClientsPage data (parsed_or_length totalCount data)))
    (λ error, ret no_clients).

Definition getReferenceData : async S (option json) :=
  try_catch
    (let! response := fetch GetReferenceData in
     if negb (ok response) then throw (http_error response)
     else
       let! data := settle (response_json response) in
       ret (Some data))
    (λ error, ret None).

Definition getClientById (id : string) : async S (option json) :=
  try_catch
    (let! response := fetch (GetClient id) in
     if negb (ok response) then
       if bool_decide (status response = 404) then ret None
       else throw (http_error response)
     else
       let! data := settle (response_json response) in
       ret (Some data))
    (λ error, throw error).

Definition createClient (clientData : obj) : async S json :=
  try_catch
    (let! response := fetch (PostClient clientData) in
     if negb (ok response) then
       let! errorBody := settle (response_json response) in
       throw (http_error_message response
                (or_else (error_message errorBody) "Unknown error"))
     else settle (response_json response))
    (λ error, throw error).

Definition updateClient (id : string) (clientData : obj) : async S json :=
  try_catch
    (let! response := fetch (PatchClient id clientData) in
     if negb (ok response) then
       let! errorBody := settle (response_json response) in
       throw (http_error_message response
                (or_else (error_message errorBody) "Unknown error"))
     else settle (response_json response))
    (λ error, throw error).

Definition deleteClient (id : string) : async S deleted :=
  try_catch
    (let! response := fetch (DeleteClient id) in
     if bool_decide (status response = 204) then ret (Deleted true None)
     else if negb (ok response) then
       let errorBody := default (JOther None) (body response) in
       throw (http_error_message response
                (or_else (error_message errorBody) "Failed to delete client"))
     else ret (Deleted true (body response)))
    (λ error, throw error).

End Fetch.

End Api.

Import Api.

(** ** pages/ClientFormPage.js *)

Module ClientFormPage.

(** The state [formData]: exactly the ten keys of [initialFormState], which
    are the only ones that the inputs and the loading of a client for
    editing ever write. *)
Record form_data : Type := FormData {
  first_name : value;
  last_name : value;
  date_of_birth : value;
  email : value;
  phone : value;
  status_code : value;
  primary_language_code : value;
  pronoun_code : value;
  sex : value;
  interpreter_needed : value }.

Definition initialFormState : form_data :=
  FormData (VStr "") (VStr "") (VStr "") (VStr "") (VStr "") (VStr "")
           (VStr "") (VStr "") (VStr "") (VBool false).

(** [{...formData}] *)
Definition spread (formData : form_data) : obj :=
  {[ "first_name" := first_name formData;
     "last_name" := last_name formData;
     "date_of_birth" := date_of_birth formData;
     "email" := email formData;
     "phone" := phone formData;
     "status_code" := status_code formData;
     "primary_language_code" := primary_language_code formData;
     "pronoun_code" := pronoun_code formData;
     "sex" := sex formData;
     "interpreter_needed" := interpreter_needed formData ]}.

(** What a submit leaves on the page: [setFormError], [alert], [navigate]. *)
Record submitted : Type :=
  Submitted { formError : option string; alert : option string; navigate : option string }.

(** [response.id] inside a string *)
Definition response_id (response : json) : string :=
  match response with
  | JClient c => id c
  | _ => "undefined"
  end.

(** The effect that loads a client for editing: [clientDataForForm] starts
    as [initialFormState], takes every field of the client that is a key of
    [initialFormState], and makes [interpreter_needed] a boolean.  (A field
    of a JSON document is never [undefined].) *)
Definition clientDataForForm (c : client) : form_data :=
  let field (key : string) (initial : form_data → value) : value :=
    default (initial initialFormState) (attrs c !! key) in
  FormData
    (field "first_name" first_name)
    (field "last_name" last_name)
    (field "date_of_birth" date_of_birth)
    (field "email" email)
    (field "phone" phone)
    (field "status_code" status_code)
    (field "primary_language_code" primary_language_code)
    (field "pronoun_code" pronoun_code)
    (field "sex" sex)
    (VBool (truthy (attrs c !! "interpreter_needed"))).

(** [handleChange], from [e.target]'s [name], [value] (here [text]), [type]
    and [checked]: [{...prev, [name]: type === 'checkbox' ? checked : value}].
    The inputs of the form carry the ten names of [initialFormState]; the
    state has no field for any other. *)
Definition handleChange (name text type : string) (checked : bool) (prev : form_data)
  : form_data :=
  let v := if bool_decide (type = "checkbox") then VBool checked else VStr text in
  let 'FormData f l d e p s g n x i := prev in
  if bool_decide (name = "first_name") then FormData v l d e p s g n x i
  else if bool_decide (name = "last_name") then FormData f v d e p s g n x i
  else if bool_decide (name = "date_of_birth") then FormData f l v e p s g n x i
  else if bool_decide (name = "email") then FormData f l d v p s g n x i
  else if bool_decide (name = "phone") then FormData f l d e v s g n x i
  else if bool_decide (name = "status_code") then FormData f l d e p v g n x i
  else if bool_decide (name = "primary_language_code") then FormData f l d e p s v n x i
  else if bool_decide (name = "pronoun_code") then FormData f l d e p s g v x i
  else if bool_decide (name = "sex") then FormData f l d e p s g n v i
  else if bool_decide (name = "interpreter_needed") then FormData f l d e p s g n x v
  else prev.

Section Fetch.

Context {S : Type}.
Variable fetch : request → async S response.

(** The page runs against the browser's clock and the backend. *)
Definition new_Date : async (clock * S) string :=
  λ '(now, s), let '(t, now') := new_Date_toISOString now in (Returned t, (now', s)).

Definition backend {A} (m : async S A) : async (clock * S) A :=
  λ '(now, s), let '(o, s') := m s in (o, (now, s')).

Definition required_missing (formData : form_data) : bool :=
  negb (truthy (Some (first_name formData)))
  || negb (truthy (Some (last_name formData)))
  || negb (truthy (Some (date_of_birth formData)))
  || negb (truthy (Some (status_code formData))).

Definition handleSubmit (isEditMode : bool) (id : string) (formData : form_data)
  : async (clock * S) submitted :=
  if required_missing formData then
    ret (Submitted
           (Some "Required fields are missing (First Name, Last Name, DOB, Status).")
           None None)
  else
    let! submissionData :=
      (if isEditMode then
         let! updated_at := new_Date in
         ret (assign (spread formData) {[ "updated_at" := VStr updated_at ]})
       else
         let! created_at := new_Date in
         let! updated_at := new_Date in
         ret (assign (spread formData)
                {[ "created_at" := VStr created_at;
                   "updated_at" := VStr updated_at ]})) in
    try_catch
      (if isEditMode then
         let! response := backend (updateClient fetch id submissionData) in
         ret (Submitted None (Some "Client updated successfully!")
                (Some ("/clients/" +:+ id)))
       else
         let! response := backend (createClient fetch submissionData) in
         ret (Submitted None
                (Some ("Client created successfully! ID: " +:+ response_id response))
                (Some "/")))
      (λ err,
         ret (Submitted
                (Some (or_else (Some (message err))
                         "An error occurred while saving the client."))
                None None)).

End Fetch.

End ClientFormPage.

(** ** pages/ClientListPage.js *)

Module ClientListPage.

Definition ITEMS_PER_PAGE : Z := 2.

(** The state that [fetchClientData] sets. *)
Record listed : Type :=
  Listed { clients : json; totalClients : option Z; page_error : option string }.

(** The object [params]: [_page], [_limit], and [status_code] when a status
    filter is chosen; numbers become their decimal strings in the query. *)
Definition params (currentPage : Z) (statusFilter : string) : list (string * string) :=
  [("_page", pretty currentPage); ("_limit", pretty ITEMS_PER_PAGE)]
  ++ (if bool_decide (statusFilter = "") then [] else [("status_code", statusFilter)]).

(** [Math.ceil(totalClients / ITEMS_PER_PAGE)] on whole numbers. *)
Definition totalPages (totalClients : Z) : Z := - ((- totalClients) / ITEMS_PER_PAGE).

(** The buttons Previous and Next: [p => Math.max(1, p - 1)] and
    [p => Math.min(totalPages, p + 1)]. *)
Definition previous_page (p : Z) : Z := Z.max 1 (p - 1).

Definition next_page (totalClients p : Z) : Z := Z.min (totalPages totalClients) (p + 1).

(** The state [clientStatuses]: empty until the reference data arrive with
    their [client_statuses]. *)
Definition clientStatuses (refData : option reference_data) : list obj :=
  match refData with
  | Some catalogs => default [] (catalogs !! "client_statuses")
  | None => []
  end.

(** The status cell of a row:
    [clientStatuses.find(s => s.code === client.status_code)?.name
     || client.status_code]. *)
Definition status_cell (statuses : list obj) (status_code : option value) : option value :=
  or (match List.find (λ s : obj, bool_decide (s !! "code" = status_code)) statuses with
      | Some s => s !! "name"
      | None => None
      end)
     status_code.

Section Fetch.

Context {S : Type}.
Variable fetch : request → async S response.

(** [fetchClientData], from the state [previous]: [setError(null)], then
    either [setClients] and [setTotalClients], or [setError]. *)
Definition fetchClientData (currentPage : Z) (statusFilter : string) (previous : listed)
  : async S listed :=
  try_catch
    (let! page := getClients fetch (params currentPage statusFilter) in
     ret (Listed (data page) (totalCount page) None))
    (λ err, ret (Listed (clients previous) (totalClients previous)
                   (Some "Failed to fetch clients. Please try again."))).

End Fetch.

End ClientListPage.

(** ** pages/ClientDetailPage.js *)

Module ClientDetailPage.

(** [getDisplayName(type, code)] over the state [referenceData] ([None] is
    [null]); [code] is a field of the client, [None] when it is missing. *)
Definition getDisplayName (referenceData : option reference_data)
    (type : string) (code : option value) : option value :=
  match referenceData with
  | None => code
  | Some catalogs =>
      match catalogs !! type with
      | None => code
      | Some entries =>
          match List.find (λ i : obj, bool_decide (i !! "code" = code)) entries with
          | Some item => or (item !! "name") (item !! "display_text")
          | None => code
          end
      end
  end.

(** The state that [fetchDetails] sets: [client], [referenceData], [error]. *)
Record detail : Type := Detail {
  detail_client : option json;
  detail_referenceData : option json;
  detail_error : option string }.

Section Fetch.

Context {S : Type}.
Variable fetch : request → async S response.

(** [fetchDetails], from the state [previous]: [setError(null)], then the
    client and the reference data are fetched in turn and set, with the
    error "Client not found." for [null]; anything thrown leaves the client
    and the reference data as they were. *)
Definition fetchDetails (id : string) (previous : detail) : async S detail :=
  try_catch
    (let! clientData := getClientById fetch id in
     let! refData := getReferenceData fetch in
     ret (Detail clientData refData
            (match clientData with
             | Some _ => None
             | None => Some "Client not found."
             end)))
    (λ err, ret (Detail (detail_client previous) (detail_referenceData previous)
                   (Some "Failed to fetch client details."))).

End Fetch.

End ClientDetailPage.

(** ** The browser against the running server *)

(** [fetch] when the server of server.js is up: every request resolves with
    the application's response. *)
Definition fetch_app (js : Server.json_server) : request → async Server.state response :=
  λ req st, let '(r, st') := Server.app js req st in (Returned r, st').

(** The server answering a sequence of requests of api.js, one after
    another. *)
Definition serve (js : Server.json_server) (requests : list request) (st : Server.state)
  : Server.state :=
  foldl (λ st req, snd (Server.app js req st)) st requests.

(** [get(id)]: what [getClientById] hands to the pages. *)
Definition get (js : Server.json_server) (clientId : string) (st : Server.state)
  : outcome (option json) :=
  fst (getClientById (fetch_app js) clientId st).

(** The time the next [new Date()] shows. *)
Definition now (c : clock) : string := reading c (reads c).

(** A backend that records the requests it is sent and gives every one the
    same [answer]: it shows what a service function puts on the wire. *)
Definition recorder (answer : outcome response) : request → async (list request) response :=
  λ req sent, (answer, (sent ++ [req])%list).


(** The [limit] that a list request carries under the parameter [key]. *)
Definition carried_limit (key : string) (req : request) : option Z :=
  match req with
  | ListClients query =>
      match List.find (λ p, bool_decide (fst p = key)) query with
      | Some (_, v) => parseInt v
      | None => None
      end
  | _ => None
  end.

(** An internal failure as a service function meets it: [fetch] rejects
    (the server cannot be reached), or the response is not OK, or its body
    is not JSON. *)
Definition failed (o : outcome response) : Prop :=
  match o with
  | Thrown _ => True
  | Returned r => ok r = false ∨ body r = None
  end.

(** A backend that cannot be reached, and one that holds no clients. *)
Definition unreachable : request → async unit response :=
  λ _ s, (Thrown (Error "Failed to fetch"), s).

Definition empty_store : request → async unit response :=
  λ _ s, (Returned (Response 200 (Some "0") (Some (JClients []))), s).

(** The messages that a submit leaves on the form. *)
Definition shown_messages (o : outcome ClientFormPage.submitted) : list string :=
  match o with
  | Returned page =>
      match ClientFormPage.formError page with
      | Some m => [m]
      | None => []
      end
  | Thrown _ => []
  end.

(** ** The contract, in the words of the specification *)

Module Spec.


(** A calendar date [YYYY-MM-DD], also as the head of an ISO timestamp. *)
Definition date (s : string) : option (Z * Z * Z) :=
  y ← parseInt (String.substring 0 4 s);
  m ← parseInt (String.substring 5 2 s);
  d ← parseInt (String.substring 8 2 s);
  Some (y, m, d).

Definition before (a b : Z * Z * Z) : bool :=
  let '(y1, m1, d1) := a in
  let '(y2, m2, d2) := b in
  bool_decide (y1 < y2 ∨ (y1 = y2 ∧ (m1 < m2 ∨ (m1 = m2 ∧ d1 < d2)))).

(** "[date_of_birth] in the future" *)
Definition in_future (today date_of_birth : string) : bool :=
  match date today, date date_of_birth with
  | Some t, Some b => before t b
  | _, _ => false
  end.

(** The age in whole years that [date_of_birth] yields on [today]. *)
Definition age (today date_of_birth : string) : option Z :=
  match date today, date date_of_birth with
  | Some (y, m, d), Some (y0, m0, d0) =>
      Some (y - y0 - (if before (0, m, d) (0, m0, d0) then 1 else 0))
  | _, _ => None
  end.

(** "one message per invalid field": the required fields of the client
    input schema that a form leaves empty. *)
Definition missing_fields (formData : ClientFormPage.form_data) : list string :=
  let missing (name : string) (x : value) : list string :=
    if truthy (Some x) then [] else [name] in
  (missing "first_name" (ClientFormPage.first_name formData)
   ++ missing "last_name" (ClientFormPage.last_name formData)
   ++ missing "date_of_birth" (ClientFormPage.date_of_birth formData)
   ++ missing "status_code" (ClientFormPage.status_code formData))%list.

End Spec.

(** ** The documents of the PRD's examples *)

Module Sample.

(** A json-server whose generated identifiers count the documents, whose
    collection route answers the whole collection, and whose reference data
    are the catalogs of the PRD. *)
Definition catalogs : reference_data :=
  {[ "client_statuses" :=
       [ ({[ "code" := VStr "active"; "name" := VStr "Active" ]} : obj);
         ({[ "code" := VStr "inactive"; "name" := VStr "Inactive" ]} : obj) ];
     "pronouns" :=
       [ ({[ "code" := VStr "he-him"; "display_text" := VStr "He/Him" ]} : obj);
         ({[ "code" := VStr "she-her"; "display_text" := VStr "She/Her" ]} : obj) ] ]}.

Definition js : Server.json_server :=
  Server.JsonServer
    (λ cs, "client-" +:+ pretty (length cs))
    (λ _ cs, Response 200 (Some (pretty (length cs))) (Some (JClients cs)))
    (Response 200 None (Some (JReference catalogs))).

(** A clock that shows the given times in turn. *)
Definition shows (times : list string) : clock := Clock (λ n, nth n times "") 0.

Definition jane : client :=
  Client "550e8400-e29b-41d4-a716-446655440000"
    {[ "first_name" := VStr "Jane";
       "last_name" := VStr "Smith";
       "date_of_birth" := VStr "1985-05-15";
       "email" := VStr "jane.smith@example.com";
       "phone" := VStr "+64 21 123 4567";
       "status_code" := VStr "active";
       "created_at" := VStr "2024-01-15T08:30:00Z";
       "updated_at" := VStr "2024-03-20T14:22:00Z";
       "created_by" := VStr "user-123" ]}.

(** The server holding Jane, its clock about to show the given times. *)
Definition serving (times : list string) : Server.state :=
  Server.State [jane] (shows times).

(** The form filled in with the create request of the PRD. *)
Definition john (date_of_birth : string) : ClientFormPage.form_data :=
  ClientFormPage.FormData
    (VStr "John") (VStr "Doe") (VStr date_of_birth) (VStr "john.doe@example.com")
    (VStr "+64 9 555 0123") (VStr "active") (VStr "en-NZ") (VStr "he-him")
    (VStr "male") (VBool false).

(** The same form with both names left empty. *)
Definition nameless (date_of_birth : string) : ClientFormPage.form_data :=
  ClientFormPage.FormData
    (VStr "") (VStr "") (VStr date_of_birth) (VStr "john.doe@example.com")
    (VStr "+64 9 555 0123") (VStr "active") (VStr "en-NZ") (VStr "he-him")
    (VStr "male") (VBool false).

(** What the form sends for John on 15 December 2024, and John as stored
    under the identifier generated next to Jane. *)
Definition john_data : obj :=
  assign (ClientFormPage.spread (john "1990-03-15"))
    {[ "created_at" := VStr "2024-12-15T09:15:30.000Z";
       "updated_at" := VStr "2024-12-15T09:15:30.000Z" ]}.

Definition john_client : client := Client "client-1" john_data.

(** The same json-server with the collection route of [Server.plural_list]. *)
Definition paging : Server.json_server :=
  Server.JsonServer
    (Server.createId js)
    (λ query cs, default (Server.list_route js query cs) (Server.plural_list query cs))
    (Server.reference_route js).


(** John as json-server stores him in an empty collection: under the
    number 1. *)
Definition john_numbered : Store.document :=
  Store.Document (Store.IdNumber 1) john_data.

End Sample.

(** * Properties *)

(** ** Lookup and in-place update of the collection *)

Lemma assign_lookup (target source : obj) (k : string) :
  assign target source !! k =
  match source !! k with Some v => Some v | None => target !! k end.
Proof.
  unfold assign. rewrite lookup_union.
  destruct (source !! k), (target !! k); reflexivity.
Qed.

Lemma deleted_source_lookup (t : string) (k : string) :
  ({[ "status_code" := VStr "deleted"; "deleted_at" := VStr t ]} : obj) !! k =
  if bool_decide (k = "status_code") then Some (VStr "deleted")
  else if bool_decide (k = "deleted_at") then Some (VStr t) else None.
Proof.
  repeat case_bool_decide; subst; simplify_map_eq; reflexivity.
Qed.

Lemma find_id clientId cs c : Server.find clientId cs = Some c → id c = clientId.
Proof.
  unfold Server.find. intros H. apply find_some in H as [_ Hid].
  by apply bool_decide_eq_true in Hid.
Qed.

Lemma find_find_assign clientId source cs c :
  Server.find clientId cs = Some c →
  Server.find clientId (Server.find_assign clientId source cs)
  = Some (Client (id c) (assign (attrs c) source)).
Proof.
  unfold Server.find. induction cs as [|c0 cs IH]; simpl; [done|].
  case_bool_decide as Hid; simpl.
  - intros [= <-]. by rewrite bool_decide_eq_true_2.
  - intros H. rewrite bool_decide_eq_false_2 by done. by apply IH.
Qed.

Lemma find_assign_absent clientId source cs :
  Server.find clientId cs = None → Server.find_assign clientId source cs = cs.
Proof.
  unfold Server.find. induction cs as [|c0 cs IH]; simpl; [done|].
  case_bool_decide as Hid; [done|]. intros Hfind. by rewrite IH.
Qed.

Lemma find_assign_length clientId source cs :
  length (Server.find_assign clientId source cs) = length cs.
Proof.
  induction cs as [|c0 cs IH]; simpl; [done|].
  case_bool_decide; simpl; by rewrite ?IH.
Qed.

Lemma soft_delete_found clientId st c :
  Server.find clientId (Server.clients st) = Some c →
  Server.soft_delete clientId st
  = (Response 204 None None,
     Server.State
       (Server.find_assign clientId
          {[ "status_code" := VStr "deleted"; "deleted_at" := VStr (now (Server.time st)) ]}
          (Server.clients st))
       (Clock (reading (Server.time st)) (S (reads (Server.time st))))).
Proof. unfold Server.soft_delete. by intros ->. Qed.

Lemma get_found js clientId st c :
  Server.find clientId (Server.clients st) = Some c →
  getClientById (fetch_app js) clientId st = (Returned (Some (JClient c)), st).
Proof.
  intros H. unfold getClientById, try_catch, await, fetch_app. simpl. by rewrite H.
Qed.

Lemma get_absent js clientId st :
  Server.find clientId (Server.clients st) = None →
  getClientById (fetch_app js) clientId st = (Returned None, st).
Proof.
  intros H. unfold getClientById, try_catch, await, fetch_app. simpl. by rewrite H.
Qed.

(** ** Soft delete *)

(** X18.  In a store whose identifiers are strings: the soft delete of an
    identifier under which a client is stored answers 204; afterwards
    [get(id)] still returns the document, under the same identifier, with
    [status_code] equal to "deleted", [deleted_at] set to the time of the
    call (a string, so not null) and every other field as it was, and the
    collection has lost nothing.  For an identifier under which nothing is
    stored the answer is 404, the store is left as it is, and [get(id)]
    finds nothing. *)
Theorem soft_delete_keeps_record js clientId st :
  (∀ c, Server.find clientId (Server.clients st) = Some c →
     ∃ st' c',
       Server.app js (DeleteClient clientId) st = (Response 204 None None, st')
       ∧ get js clientId st' = Returned (Some (JClient c'))
       ∧ id c' = id c
       ∧ attrs c' !! "status_code" = Some (VStr "deleted")
       ∧ attrs c' !! "deleted_at" = Some (VStr (now (Server.time st)))
       ∧ (∀ k, k ≠ "status_code" → k ≠ "deleted_at" → attrs c' !! k = attrs c !! k)
       ∧ length (Server.clients st') = length (Server.clients st))
  ∧ (Server.find clientId (Server.clients st) = None →
     ∃ errorBody,
       Server.app js (DeleteClient clientId) st = (Response 404 None errorBody, st)
       ∧ get js clientId st = Returned None).
Proof.
  split.
  - intros c Hc. simpl. rewrite (soft_delete_found _ _ _ Hc).
    eexists _, _. split; [reflexivity|].
    unfold get. erewrite get_found by (simpl; by apply find_find_assign).
    cbn [fst]. split; [reflexivity|]. cbn [id attrs Server.clients].
    split; [reflexivity|].
    rewrite !assign_lookup, !deleted_source_lookup.
    split; [reflexivity|]. split; [reflexivity|]. split.
    + intros k Hs Hd. rewrite assign_lookup, deleted_source_lookup.
      by rewrite !bool_decide_eq_false_2.
    + apply find_assign_length.
  - intros Hnone. simpl. unfold Server.soft_delete. rewrite Hnone.
    eexists. split; [reflexivity|].
    unfold get. by rewrite (get_absent js clientId st Hnone).
Qed.

Lemma soft_delete_keeps_record_witness :
  let t := "2024-12-15T09:15:30.000Z" in
  let st := Sample.serving [t] in
  (∃ st' c',
     Server.app Sample.js (DeleteClient (id Sample.jane)) st = (Response 204 None None, st')
     ∧ get Sample.js (id Sample.jane) st' = Returned (Some (JClient c'))
     ∧ id c' = id Sample.jane
     ∧ attrs c' !! "status_code" = Some (VStr "deleted")
     ∧ attrs c' !! "deleted_at" = Some (VStr t)
     ∧ (∀ k, k ≠ "status_code" → k ≠ "deleted_at" → attrs c' !! k = attrs Sample.jane !! k)
     ∧ length (Server.clients st') = 1%nat)
  ∧ (∃ errorBody,
       Server.app Sample.js (DeleteClient "no-such-client") st = (Response 404 None errorBody, st)
       ∧ get Sample.js "no-such-client" st = Returned None).
Proof.
  intros t st. split.
  - destruct (soft_delete_keeps_record Sample.js (id Sample.jane) st) as [Hfound _].
    apply (Hfound Sample.jane). reflexivity.
  - destruct (soft_delete_keeps_record Sample.js "no-such-client" st) as [_ Habsent].
    apply Habsent. reflexivity.
Defined.

(** The fields that a repeated soft delete writes: on a document that is
    already deleted, only [deleted_at] is new. *)
Lemma assign_deleted_again (fields : obj) (t : string) :
  fields !! "status_code" = Some (VStr "deleted") →
  assign fields {[ "status_code" := VStr "deleted"; "deleted_at" := VStr t ]}
  = <[ "deleted_at" := VStr t ]> fields.
Proof.
  intros Hs. apply map_eq. intros k.
  rewrite assign_lookup, deleted_source_lookup.
  repeat case_bool_decide; subst; simplify_map_eq; reflexivity.
Qed.

(** C2, as the code has it.  Soft delete of a client that is already deleted
    (status_code "deleted", deleted_at set) answers 204 again and changes
    nothing of the document but [deleted_at], which it refreshes to the time
    of the repeated call; when that is the time already recorded, the
    collection is exactly as before. *)
Theorem soft_delete_again_refreshes js clientId st c :
  Server.find clientId (Server.clients st) = Some c →
  attrs c !! "status_code" = Some (VStr "deleted") →
  is_Some (attrs c !! "deleted_at") →
  ∃ st',
    Server.app js (DeleteClient clientId) st = (Response 204 None None, st')
    ∧ get js clientId st'
      = Returned (Some (JClient
          (Client (id c) (<[ "deleted_at" := VStr (now (Server.time st)) ]> (attrs c)))))
    ∧ (attrs c !! "deleted_at" = Some (VStr (now (Server.time st))) →
       get js clientId st' = Returned (Some (JClient c))).
Proof.
  intros Hc Hs _. simpl. rewrite (soft_delete_found _ _ _ Hc).
  eexists. split; [reflexivity|].
  unfold get. erewrite get_found by (simpl; by apply find_find_assign).
  cbn [fst]. rewrite (assign_deleted_again _ _ Hs). split; [reflexivity|].
  intros Hd. rewrite (insert_id _ _ _ Hd). by destruct c.
Qed.

Lemma soft_delete_again_refreshes_witness :
  let t1 := "2024-12-15T09:15:30.000Z" in
  let t2 := "2024-12-16T10:00:00.000Z" in
  let st1 := snd (Server.app Sample.js (DeleteClient (id Sample.jane)) (Sample.serving [t1; t2])) in
  let c1 :=
    Client (id Sample.jane)
      (assign (attrs Sample.jane)
         {[ "status_code" := VStr "deleted"; "deleted_at" := VStr t1 ]}) in
  Server.find (id Sample.jane) (Server.clients st1) = Some c1
  ∧ ∃ st2,
      Server.app Sample.js (DeleteClient (id Sample.jane)) st1 = (Response 204 None None, st2)
      ∧ get Sample.js (id Sample.jane) st2
        = Returned (Some (JClient (Client (id c1) (<[ "deleted_at" := VStr t2 ]> (attrs c1)))))
      ∧ (attrs c1 !! "deleted_at" = Some (VStr t2) →
         get Sample.js (id Sample.jane) st2 = Returned (Some (JClient c1))).
Proof.
  intros t1 t2 st1 c1. split; [reflexivity|].
  apply (soft_delete_again_refreshes Sample.js (id Sample.jane) st1 c1).
  - reflexivity.
  - reflexivity.
  - exists (VStr t1). reflexivity.
Defined.

(** C2, as stated, fails: Jane is deleted on 15 December and deleted again
    on 16 December; the second call answers 204, and the document that
    [get(id)] returns after it is not the one it returned before it. *)
Lemma soft_delete_again_changes_record :
  let t1 := "2024-12-15T09:15:30.000Z" in
  let t2 := "2024-12-16T10:00:00.000Z" in
  let st1 := snd (Server.app Sample.js (DeleteClient (id Sample.jane)) (Sample.serving [t1; t2])) in
  let st2 := snd (Server.app Sample.js (DeleteClient (id Sample.jane)) st1) in
  (∃ c1,
     get Sample.js (id Sample.jane) st1 = Returned (Some (JClient c1))
     ∧ attrs c1 !! "status_code" = Some (VStr "deleted")
     ∧ attrs c1 !! "deleted_at" = Some (VStr t1))
  ∧ fst (Server.app Sample.js (DeleteClient (id Sample.jane)) st1) = Response 204 None None
  ∧ get Sample.js (id Sample.jane) st2 ≠ get Sample.js (id Sample.jane) st1.
Proof.
  intros t1 t2 st1 st2. split; [|split; [reflexivity|]].
  - eexists. repeat split; reflexivity.
  - intros Heq. vm_compute in Heq. discriminate Heq.
Qed.

(** ** Create and update through the form *)

Lemma post_fresh js (data : obj) st :
  data !! "id" = None →
  Server.find (Server.createId js (Server.clients st)) (Server.clients st) = None →
  Server.app js (PostClient data) st
  = (Response 201 None (Some (JClient (Client (Server.createId js (Server.clients st)) data))),
     Server.State
       (Server.clients st ++ [Client (Server.createId js (Server.clients st)) data])
       (Server.time st)).
Proof.
  intros Hid Hfresh. cbn [Server.app Server.router].
  unfold Server.insert_id. rewrite Hid. cbn [id].
  rewrite Hfresh. by rewrite (delete_id _ _ Hid).
Qed.

Lemma patch_found js clientId (data : obj) st c :
  data !! "id" = None →
  Server.find clientId (Server.clients st) = Some c →
  Server.app js (PatchClient clientId data) st
  = (Response 200 None (Some (JClient (Client (id c) (assign (attrs c) data)))),
     Server.State (Server.find_assign clientId data (Server.clients st)) (Server.time st)).
Proof.
  intros Hid Hc. cbn [Server.app Server.router].
  rewrite (delete_id _ _ Hid). by rewrite (find_find_assign _ _ _ _ Hc).
Qed.

Lemma created_lookup_id (formData : ClientFormPage.form_data) (a b : string) :
  assign (ClientFormPage.spread formData)
    {[ "created_at" := VStr a; "updated_at" := VStr b ]} !! "id" = None.
Proof. reflexivity. Qed.

Lemma updated_lookup_id (formData : ClientFormPage.form_data) (a : string) :
  assign (ClientFormPage.spread formData) {[ "updated_at" := VStr a ]} !! "id" = None.
Proof. reflexivity. Qed.

Lemma handleSubmit_create js id0 formData clk st :
  ClientFormPage.required_missing formData = false →
  Server.find (Server.createId js (Server.clients st)) (Server.clients st) = None →
  ClientFormPage.handleSubmit (fetch_app js) false id0 formData (clk, st)
  = (Returned
       (ClientFormPage.Submitted None
          (Some ("Client created successfully! ID: "
                 +:+ Server.createId js (Server.clients st)))
          (Some "/")),
     (Clock (reading clk) (S (S (reads clk))),
      Server.State
        (Server.clients st
         ++ [Client (Server.createId js (Server.clients st))
               (assign (ClientFormPage.spread formData)
                  {[ "created_at" := VStr (now clk);
                     "updated_at" := VStr (reading clk (S (reads clk))) ]})])
        (Server.time st))).
Proof.
  intros Hreq Hfresh. unfold ClientFormPage.handleSubmit. rewrite Hreq.
  unfold await, try_catch, ret, ClientFormPage.new_Date, ClientFormPage.backend,
    createClient, await, try_catch, fetch_app, new_Date_toISOString.
  cbn [reading reads].
  rewrite (post_fresh js _ st (created_lookup_id formData _ _) Hfresh).
  reflexivity.
Qed.

Lemma handleSubmit_edit js clientId formData clk st c :
  ClientFormPage.required_missing formData = false →
  Server.find clientId (Server.clients st) = Some c →
  ClientFormPage.handleSubmit (fetch_app js) true clientId formData (clk, st)
  = (Returned
       (ClientFormPage.Submitted None (Some "Client updated successfully!")
          (Some ("/clients/" +:+ clientId))),
     (Clock (reading clk) (S (reads clk)),
      Server.State
        (Server.find_assign clientId
           (assign (ClientFormPage.spread formData) {[ "updated_at" := VStr (now clk) ]})
           (Server.clients st))
        (Server.time st))).
Proof.
  intros Hreq Hc. unfold ClientFormPage.handleSubmit. rewrite Hreq.
  unfold await, try_catch, ret, ClientFormPage.new_Date, ClientFormPage.backend,
    updateClient, await, try_catch, fetch_app, new_Date_toISOString.
  cbn [reading reads].
  rewrite (patch_found js clientId _ st c (updated_lookup_id formData _) Hc).
  reflexivity.
Qed.

Lemma handleSubmit_missing {S} (fetch : request → async S response)
    isEditMode id0 formData (w : clock * S) :
  ClientFormPage.required_missing formData = true →
  ClientFormPage.handleSubmit fetch isEditMode id0 formData w
  = (Returned
       (ClientFormPage.Submitted
          (Some "Required fields are missing (First Name, Last Name, DOB, Status).")
          None None), w).
Proof. intros Hreq. unfold ClientFormPage.handleSubmit. by rewrite Hreq. Qed.

Lemma created_lookup (formData : ClientFormPage.form_data) (a b : string) :
  let data := assign (ClientFormPage.spread formData)
                {[ "created_at" := VStr a; "updated_at" := VStr b ]} in
  data !! "created_at" = Some (VStr a)
  ∧ data !! "updated_at" = Some (VStr b)
  ∧ data !! "created_by" = None.
Proof. repeat split; reflexivity. Qed.

Lemma updated_lookup (formData : ClientFormPage.form_data) (a : string) :
  let data := assign (ClientFormPage.spread formData) {[ "updated_at" := VStr a ]} in
  data !! "updated_at" = Some (VStr a)
  ∧ data !! "created_at" = None
  ∧ data !! "created_by" = None.
Proof. repeat split; reflexivity. Qed.

(** ** Timestamps *)

(** C3, as the code has it.  A create through the form stores [created_at]
    and [updated_at] as the browser's clock shows them at the submit, and no
    [created_by]; an edit through the form refreshes [updated_at] to the
    time of the submit and leaves [created_at] and [created_by] as they
    were; a soft delete writes neither: [updated_at], [created_at] and
    [created_by] all stay as they were. *)
Theorem timestamps_by_operation js formData clk st :
  (ClientFormPage.required_missing formData = false →
   Server.find (Server.createId js (Server.clients st)) (Server.clients st) = None →
   ∃ c,
     Server.clients
       (snd (snd (ClientFormPage.handleSubmit (fetch_app js) false "" formData (clk, st))))
     = (Server.clients st ++ [c])%list
     ∧ attrs c !! "created_at" = Some (VStr (now clk))
     ∧ attrs c !! "updated_at" = Some (VStr (reading clk (S (reads clk))))
     ∧ attrs c !! "created_by" = None)
  ∧ (∀ clientId c,
       ClientFormPage.required_missing formData = false →
       Server.find clientId (Server.clients st) = Some c →
       ∃ c',
         get js clientId
           (snd (snd (ClientFormPage.handleSubmit (fetch_app js) true clientId formData (clk, st))))
         = Returned (Some (JClient c'))
         ∧ attrs c' !! "updated_at" = Some (VStr (now clk))
         ∧ attrs c' !! "created_at" = attrs c !! "created_at"
         ∧ attrs c' !! "created_by" = attrs c !! "created_by")
  ∧ (∀ clientId c,
       Server.find clientId (Server.clients st) = Some c →
       ∃ c',
         fst (Server.app js (DeleteClient clientId) st) = Response 204 None None
         ∧ get js clientId (snd (Server.app js (DeleteClient clientId) st))
           = Returned (Some (JClient c'))
         ∧ attrs c' !! "updated_at" = attrs c !! "updated_at"
         ∧ attrs c' !! "created_at" = attrs c !! "created_at"
         ∧ attrs c' !! "created_by" = attrs c !! "created_by").
Proof.
  split; [|split].
  - intros Hreq Hfresh. rewrite (handleSubmit_create js "" formData clk st Hreq Hfresh).
    eexists. split; [reflexivity|]. cbn [attrs]. apply created_lookup.
  - intros clientId c Hreq Hc.
    rewrite (handleSubmit_edit js clientId formData clk st c Hreq Hc).
    cbn [snd]. unfold get. erewrite get_found by (simpl; by apply find_find_assign).
    eexists. split; [reflexivity|]. cbn [attrs].
    destruct (updated_lookup formData (now clk)) as (Hu & Hc1 & Hc2).
    cbv zeta in Hu, Hc1, Hc2.
    rewrite !(assign_lookup (attrs c)). by rewrite Hu, Hc1, Hc2.
  - intros clientId c Hc. cbn [Server.app]. rewrite (soft_delete_found _ _ _ Hc).
    cbn [fst snd]. unfold get. erewrite get_found by (simpl; by apply find_find_assign).
    eexists. split; [reflexivity|]. split; [reflexivity|]. cbn [attrs].
    rewrite !assign_lookup, !deleted_source_lookup. by repeat split.
Qed.

Lemma timestamps_by_operation_witness :
  let clk := Sample.shows ["2024-12-15T09:15:30.000Z"; "2024-12-15T09:15:30.000Z"] in
  let st := Sample.serving ["2024-12-16T10:00:00.000Z"] in
  let formData := Sample.john "1990-03-15" in
  (∃ c,
     Server.clients
       (snd (snd (ClientFormPage.handleSubmit (fetch_app Sample.js) false "" formData (clk, st))))
     = (Server.clients st ++ [c])%list
     ∧ attrs c !! "created_at" = Some (VStr "2024-12-15T09:15:30.000Z")
     ∧ attrs c !! "updated_at" = Some (VStr "2024-12-15T09:15:30.000Z")
     ∧ attrs c !! "created_by" = None)
  ∧ (∃ c',
       get Sample.js (id Sample.jane)
         (snd (snd (ClientFormPage.handleSubmit (fetch_app Sample.js) true
                      (id Sample.jane) formData (clk, st))))
       = Returned (Some (JClient c'))
       ∧ attrs c' !! "updated_at" = Some (VStr "2024-12-15T09:15:30.000Z")
       ∧ attrs c' !! "created_at" = Some (VStr "2024-01-15T08:30:00Z")
       ∧ attrs c' !! "created_by" = Some (VStr "user-123"))
  ∧ (∃ c',
       fst (Server.app Sample.js (DeleteClient (id Sample.jane)) st) = Response 204 None None
       ∧ get Sample.js (id Sample.jane)
           (snd (Server.app Sample.js (DeleteClient (id Sample.jane)) st))
         = Returned (Some (JClient c'))
       ∧ attrs c' !! "updated_at" = Some (VStr "2024-03-20T14:22:00Z")
       ∧ attrs c' !! "created_at" = Some (VStr "2024-01-15T08:30:00Z")
       ∧ attrs c' !! "created_by" = Some (VStr "user-123")).
Proof.
  intros clk st formData.
  destruct (timestamps_by_operation Sample.js formData clk st) as (Hcreate & Hedit & Hdelete).
  split; [|split].
  - apply Hcreate; reflexivity.
  - apply (Hedit (id Sample.jane) Sample.jane); reflexivity.
  - apply (Hdelete (id Sample.jane) Sample.jane); reflexivity.
Defined.

(** C3, as stated, fails: Jane, last updated on 20 March, is soft-deleted on
    16 December; the call answers 204 and her [updated_at] is still that of
    20 March.  And John, created through the form, has no [created_by]. *)
Lemma soft_delete_leaves_updated_at :
  let t := "2024-12-16T10:00:00.000Z" in
  let st := Sample.serving [t] in
  let clk := Sample.shows ["2024-12-15T09:15:30.000Z"; "2024-12-15T09:15:30.000Z"] in
  (fst (Server.app Sample.js (DeleteClient (id Sample.jane)) st) = Response 204 None None
   ∧ ∃ c',
       get Sample.js (id Sample.jane)
         (snd (Server.app Sample.js (DeleteClient (id Sample.jane)) st))
       = Returned (Some (JClient c'))
       ∧ attrs c' !! "updated_at" = Some (VStr "2024-03-20T14:22:00Z")
       ∧ attrs c' !! "updated_at" ≠ Some (VStr t))
  ∧ (∃ c,
       Server.clients
         (snd (snd (ClientFormPage.handleSubmit (fetch_app Sample.js) false ""
                      (Sample.john "1990-03-15") (clk, st))))
       = [Sample.jane; c]
       ∧ attrs c !! "created_by" = None).
Proof.
  intros t st clk. split.
  - split; [reflexivity|]. eexists. split; [reflexivity|].
    split; [reflexivity|]. vm_compute. discriminate.
  - eexists. split; [vm_compute; reflexivity|]. reflexivity.
Qed.

(** ** Create *)

(** C4.  The form stamps a new client from two readings of the clock, one
    for [created_at] and the next for [updated_at].  When the clock moves
    on between them (here by a millisecond) the client is created and
    stored with [created_at] different from [updated_at]. *)
Theorem create_stamps_differ :
  let clk := Sample.shows ["2024-12-15T09:15:30.999Z"; "2024-12-15T09:15:31.000Z"] in
  let st := Server.State [] (Sample.shows []) in
  ∃ c,
    ClientFormPage.handleSubmit (fetch_app Sample.js) false "" (Sample.john "1990-03-15") (clk, st)
    = (Returned
         (ClientFormPage.Submitted None (Some "Client created successfully! ID: client-0")
            (Some "/")),
       (Clock (reading clk) 2, Server.State [c] (Sample.shows [])))
    ∧ get Sample.js "client-0" (Server.State [c] (Sample.shows [])) = Returned (Some (JClient c))
    ∧ attrs c !! "created_at" = Some (VStr "2024-12-15T09:15:30.999Z")
    ∧ attrs c !! "updated_at" = Some (VStr "2024-12-15T09:15:31.000Z")
    ∧ attrs c !! "created_at" ≠ attrs c !! "updated_at".
Proof.
  intros clk st. eexists. split.
  - rewrite handleSubmit_create by reflexivity. reflexivity.
  - split; [reflexivity|]. split; [reflexivity|]. split; [reflexivity|].
    vm_compute. discriminate.
Qed.

(** The identifiers of the collection stay pairwise distinct under every
    request: POST refuses one already in use, PATCH and the soft delete keep
    the identifier of the document they write. *)
Lemma find_absent_ids clientId cs :
  Server.find clientId cs = None ↔ clientId ∉ map id cs.
Proof.
  unfold Server.find. induction cs as [|c cs IH]; simpl.
  - split; [intros _; apply not_elem_of_nil|done].
  - rewrite not_elem_of_cons. case_bool_decide as Hid; simpl.
    + split; [done|]. intros [Hne _]. congruence.
    + rewrite IH. split; [intros Hnot; split; [congruence|done]|by intros [_ Hnot]].
Qed.

Lemma find_assign_ids clientId source cs :
  map id (Server.find_assign clientId source cs) = map id cs.
Proof.
  induction cs as [|c cs IH]; simpl; [done|].
  case_bool_decide; simpl; by rewrite ?IH.
Qed.

Lemma app_ids_distinct js req st :
  NoDup (map id (Server.clients st)) →
  NoDup (map id (Server.clients (snd (Server.app js req st)))).
Proof.
  intros Hnodup. destruct req as [query| |clientId|data|clientId data|clientId]; simpl.
  - done.
  - done.
  - by destruct (Server.find clientId _).
  - destruct (Server.find _ _) eqn:Hfind; simpl; [done|].
    rewrite map_app. simpl. apply NoDup_app. split; [done|]. split.
    + intros x Hx Hin. apply list_elem_of_singleton in Hin as ->.
      by apply find_absent_ids in Hfind.
    + apply NoDup_singleton.
  - destruct (Server.find clientId (Server.find_assign _ _ _)); simpl; [|done].
    by rewrite find_assign_ids.
  - unfold Server.soft_delete. destruct (Server.find clientId _); simpl; [|done].
    by rewrite find_assign_ids.
Qed.

(** ** Validation *)

Lemma spread_date_of_birth (formData : ClientFormPage.form_data) (source : obj) :
  source !! "date_of_birth" = None →
  assign (ClientFormPage.spread formData) source !! "date_of_birth"
  = Some (ClientFormPage.date_of_birth formData).
Proof. intros Hs. rewrite assign_lookup, Hs. reflexivity. Qed.

(** C5, as the code has it.  The form looks at [date_of_birth] only to see
    that it is filled in.  When it is empty the submit is rejected before
    any request is made.  When the four required fields are filled in, the
    date is stored as typed, whatever it is: by a create (under an unused
    identifier) in the new document, by an edit in the document edited. *)
Theorem date_of_birth_only_required js formData clk st :
  (truthy (Some (ClientFormPage.date_of_birth formData)) = false →
   ∀ isEditMode clientId,
     ClientFormPage.handleSubmit (fetch_app js) isEditMode clientId formData (clk, st)
     = (Returned
          (ClientFormPage.Submitted
             (Some "Required fields are missing (First Name, Last Name, DOB, Status).")
             None None),
        (clk, st)))
  ∧ (ClientFormPage.required_missing formData = false →
     (Server.find (Server.createId js (Server.clients st)) (Server.clients st) = None →
      ∃ page w c,
        ClientFormPage.handleSubmit (fetch_app js) false "" formData (clk, st)
        = (Returned page, w)
        ∧ ClientFormPage.formError page = None
        ∧ Server.clients (snd w) = (Server.clients st ++ [c])%list
        ∧ attrs c !! "date_of_birth" = Some (ClientFormPage.date_of_birth formData))
     ∧ (∀ clientId c,
          Server.find clientId (Server.clients st) = Some c →
          ∃ page w c',
            ClientFormPage.handleSubmit (fetch_app js) true clientId formData (clk, st)
            = (Returned page, w)
            ∧ ClientFormPage.formError page = None
            ∧ get js clientId (snd w) = Returned (Some (JClient c'))
            ∧ attrs c' !! "date_of_birth" = Some (ClientFormPage.date_of_birth formData))).
Proof.
  split.
  - intros Hdob isEditMode clientId. apply handleSubmit_missing.
    unfold ClientFormPage.required_missing. rewrite Hdob. simpl.
    by rewrite !orb_true_r.
  - intros Hreq. split.
    + intros Hfresh. rewrite (handleSubmit_create js "" formData clk st Hreq Hfresh).
      eexists _, _, _. split; [reflexivity|]. split; [reflexivity|].
      split; [reflexivity|]. cbn [attrs]. by apply spread_date_of_birth.
    + intros clientId c Hc.
      rewrite (handleSubmit_edit js clientId formData clk st c Hreq Hc).
      eexists _, _, _. split; [reflexivity|]. split; [reflexivity|]. cbn [snd].
      unfold get. erewrite get_found by (simpl; by apply find_find_assign).
      split; [reflexivity|]. cbn [attrs].
      rewrite (assign_lookup (attrs c)). by rewrite spread_date_of_birth.
Qed.

Lemma date_of_birth_only_required_witness :
  let clk := Sample.shows ["2026-11-02T08:00:00.000Z"; "2026-11-02T08:00:00.000Z"] in
  let st := Sample.serving [] in
  ClientFormPage.handleSubmit (fetch_app Sample.js) false "" (Sample.john "") (clk, st)
  = (Returned
       (ClientFormPage.Submitted
          (Some "Required fields are missing (First Name, Last Name, DOB, Status).")
          None None),
     (clk, st))
  ∧ (∃ page w c,
       ClientFormPage.handleSubmit (fetch_app Sample.js) false "" (Sample.john "1990-03-15") (clk, st)
       = (Returned page, w)
       ∧ ClientFormPage.formError page = None
       ∧ Server.clients (snd w) = [Sample.jane; c]
       ∧ attrs c !! "date_of_birth" = Some (VStr "1990-03-15"))
  ∧ (∃ page w c',
       ClientFormPage.handleSubmit (fetch_app Sample.js) true (id Sample.jane)
         (Sample.john "1990-03-15") (clk, st)
       = (Returned page, w)
       ∧ ClientFormPage.formError page = None
       ∧ get Sample.js (id Sample.jane) (snd w) = Returned (Some (JClient c'))
       ∧ attrs c' !! "date_of_birth" = Some (VStr "1990-03-15")).
Proof.
  intros clk st. split; [|split].
  - destruct (date_of_birth_only_required Sample.js (Sample.john "") clk st) as [Hempty _].
    apply Hempty. reflexivity.
  - destruct (date_of_birth_only_required Sample.js (Sample.john "1990-03-15") clk st)
      as [_ Hfilled].
    destruct (Hfilled eq_refl) as [Hcreate _]. apply Hcreate. reflexivity.
  - destruct (date_of_birth_only_required Sample.js (Sample.john "1990-03-15") clk st)
      as [_ Hfilled].
    destruct (Hfilled eq_refl) as [_ Hedit]. apply (Hedit (id Sample.jane) Sample.jane).
    reflexivity.
Defined.

(** C5, as stated, fails: on 2 November 2026 the form creates John with a
    date of birth in 2999, and again with one in 1800 (an age of 226); both
    are accepted and stored. *)
Lemma future_date_of_birth_is_stored :
  let today := "2026-11-02T08:00:00.000Z" in
  let clk := Sample.shows [today; today] in
  let st := Sample.serving [] in
  let stored (date_of_birth : string) :=
    ∃ w c,
      ClientFormPage.handleSubmit (fetch_app Sample.js) false ""
        (Sample.john date_of_birth) (clk, st)
      = (Returned
           (ClientFormPage.Submitted None (Some "Client created successfully! ID: client-1")
              (Some "/")), w)
      ∧ Server.clients (snd w) = [Sample.jane; c]
      ∧ attrs c !! "date_of_birth" = Some (VStr date_of_birth) in
  (Spec.in_future today "2999-01-01" = true ∧ stored "2999-01-01")
  ∧ (Spec.age today "1800-01-01" = Some 226 ∧ stored "1800-01-01").
Proof.
  intros today clk st stored. split; (split; [reflexivity|]).
  - eexists _, _. rewrite handleSubmit_create by reflexivity.
    split; [reflexivity|]. split; reflexivity.
  - eexists _, _. rewrite handleSubmit_create by reflexivity.
    split; [reflexivity|]. split; reflexivity.
Qed.

(** ** Email *)

Lemma find_assign_keeps_others clientId source cs (other : client) :
  other ∈ cs → id other ≠ clientId → other ∈ Server.find_assign clientId source cs.
Proof.
  intros Hin Hne. induction cs as [|c cs IH]; simpl; [done|].
  apply elem_of_cons in Hin as [->|Hin].
  - rewrite bool_decide_eq_false_2 by done. apply elem_of_cons. by left.
  - case_bool_decide; apply elem_of_cons; right; [done|by apply IH].
Qed.

Lemma createClient_fresh js (data : obj) st :
  data !! "id" = None →
  Server.find (Server.createId js (Server.clients st)) (Server.clients st) = None →
  createClient (fetch_app js) data st
  = (Returned (JClient (Client (Server.createId js (Server.clients st)) data)),
     Server.State
       (Server.clients st ++ [Client (Server.createId js (Server.clients st)) data])
       (Server.time st)).
Proof.
  intros Hid Hfresh. unfold createClient, try_catch, await, fetch_app.
  by rewrite (post_fresh js data st Hid Hfresh).
Qed.

Lemma updateClient_found js clientId (data : obj) st c :
  data !! "id" = None →
  Server.find clientId (Server.clients st) = Some c →
  updateClient (fetch_app js) clientId data st
  = (Returned (JClient (Client (id c) (assign (attrs c) data))),
     Server.State (Server.find_assign clientId data (Server.clients st)) (Server.time st)).
Proof.
  intros Hid Hc. unfold updateClient, try_catch, await, fetch_app.
  by rewrite (patch_found js clientId data st c Hid Hc).
Qed.

(** C6, as the code has it.  Neither the form, nor api.js, nor server.js
    compares emails.  Let the store hold a client [other] whose email is the
    non-empty email of the data sent.  [createClient] still returns the new
    client, stored next to [other] under another identifier and with the
    same email; and [updateClient] on any other client of the store still
    returns that client with the email written into it, [other] staying in
    the store as it is. *)
Theorem email_is_not_compared js st (data : obj) (other : client) :
  other ∈ Server.clients st →
  truthy (data !! "email") = true →
  attrs other !! "email" = data !! "email" →
  data !! "id" = None →
  (Server.find (Server.createId js (Server.clients st)) (Server.clients st) = None →
   ∃ c st',
     createClient (fetch_app js) data st = (Returned (JClient c), st')
     ∧ Server.clients st' = (Server.clients st ++ [c])%list
     ∧ id c ≠ id other
     ∧ attrs c !! "email" = attrs other !! "email")
  ∧ (∀ clientId c0,
       Server.find clientId (Server.clients st) = Some c0 →
       id other ≠ clientId →
       ∃ c' st',
         updateClient (fetch_app js) clientId data st = (Returned (JClient c'), st')
         ∧ get js clientId st' = Returned (Some (JClient c'))
         ∧ attrs c' !! "email" = attrs other !! "email"
         ∧ other ∈ Server.clients st').
Proof.
  intros Hother Hemail Hsame Hid. split.
  - intros Hfresh. rewrite (createClient_fresh js data st Hid Hfresh).
    eexists _, _. split; [reflexivity|]. split; [reflexivity|]. cbn [id attrs].
    split; [|done]. intros Heq. apply find_absent_ids in Hfresh. apply Hfresh.
    rewrite Heq. apply list_elem_of_fmap. by exists other.
  - intros clientId c0 Hc0 Hne. rewrite (updateClient_found js clientId data st c0 Hid Hc0).
    eexists _, _. split; [reflexivity|].
    unfold get. erewrite get_found by (simpl; by apply find_find_assign).
    rewrite (find_id _ _ _ Hc0). split; [reflexivity|]. cbn [attrs Server.clients].
    split; [|by apply find_assign_keeps_others].
    rewrite assign_lookup, Hsame. destruct (data !! "email"); [done|discriminate Hemail].
Qed.

Lemma email_is_not_compared_witness :
  let st := Server.State [Sample.jane; Sample.john_client] (Sample.shows []) in
  (∃ c st',
     createClient (fetch_app Sample.js) Sample.john_data st = (Returned (JClient c), st')
     ∧ Server.clients st' = [Sample.jane; Sample.john_client; c]
     ∧ id c ≠ id Sample.john_client
     ∧ attrs c !! "email" = attrs Sample.john_client !! "email")
  ∧ (∃ c' st',
       updateClient (fetch_app Sample.js) (id Sample.jane) Sample.john_data st
       = (Returned (JClient c'), st')
       ∧ get Sample.js (id Sample.jane) st' = Returned (Some (JClient c'))
       ∧ attrs c' !! "email" = attrs Sample.john_client !! "email"
       ∧ Sample.john_client ∈ Server.clients st').
Proof.
  intros st.
  assert (Hother : Sample.john_client ∈ Server.clients st)
    by (right; left).
  destruct (email_is_not_compared Sample.js st Sample.john_data Sample.john_client
              Hother eq_refl eq_refl eq_refl) as [Hcreate Hupdate].
  split.
  - apply Hcreate. reflexivity.
  - apply (Hupdate (id Sample.jane) Sample.jane); [reflexivity|].
    vm_compute. discriminate.
Defined.

(** C6, as stated, fails: the form creates John twice with the same email;
    the second submit is accepted like the first and the store then holds
    two clients with the email john.doe@example.com.  An edit that gives
    Jane that email is accepted as well. *)
Lemma duplicate_email_is_stored :
  let t := "2024-12-15T09:15:30.000Z" in
  let clk := Sample.shows [t; t; t; t; t] in
  let first := ClientFormPage.handleSubmit (fetch_app Sample.js) false ""
                 (Sample.john "1990-03-15") (clk, Sample.serving []) in
  let second := ClientFormPage.handleSubmit (fetch_app Sample.js) false ""
                  (Sample.john "1990-03-15") (snd first) in
  let third := ClientFormPage.handleSubmit (fetch_app Sample.js) true (id Sample.jane)
                 (Sample.john "1990-03-15") (snd second) in
  fst second
  = Returned (ClientFormPage.Submitted None (Some "Client created successfully! ID: client-2")
                (Some "/"))
  ∧ (∃ c1 c2,
       Server.clients (snd (snd second)) = [Sample.jane; c1; c2]
       ∧ id c1 ≠ id c2
       ∧ attrs c1 !! "email" = Some (VStr "john.doe@example.com")
       ∧ attrs c2 !! "email" = Some (VStr "john.doe@example.com"))
  ∧ fst third
    = Returned (ClientFormPage.Submitted None (Some "Client updated successfully!")
                  (Some "/clients/550e8400-e29b-41d4-a716-446655440000"))
  ∧ (∃ c0 c1 c2,
       Server.clients (snd (snd third)) = [c0; c1; c2]
       ∧ id c0 = id Sample.jane
       ∧ attrs c0 !! "email" = attrs c1 !! "email").
Proof.
  intros t clk first second third.
  split; [vm_compute; reflexivity|]. split.
  - eexists _, _. split; [vm_compute; reflexivity|].
    split; [vm_compute; discriminate|]. split; vm_compute; reflexivity.
  - split; [vm_compute; reflexivity|].
    eexists _, _, _. split; [vm_compute; reflexivity|].
    split; vm_compute; reflexivity.
Qed.

(** ** Validation messages *)

Lemma missing_fields_required (formData : ClientFormPage.form_data) :
  Spec.missing_fields formData ≠ [] ↔ ClientFormPage.required_missing formData = true.
Proof.
  unfold Spec.missing_fields, ClientFormPage.required_missing.
  destruct (truthy (Some (ClientFormPage.first_name formData))),
    (truthy (Some (ClientFormPage.last_name formData))),
    (truthy (Some (ClientFormPage.date_of_birth formData))),
    (truthy (Some (ClientFormPage.status_code formData))); simpl; split; done.
Qed.

(** C7, as the code has it.  The form validates by one test of the four
    required fields.  Whenever at least one of them is empty, whichever and
    however many, the submit shows the one fixed message that names all
    four, and makes no request: the backend is left as it was. *)
Theorem missing_fields_one_message {S} (fetch : request → async S response)
    isEditMode clientId formData (w : clock * S) :
  Spec.missing_fields formData ≠ [] →
  ClientFormPage.handleSubmit fetch isEditMode clientId formData w
  = (Returned
       (ClientFormPage.Submitted
          (Some "Required fields are missing (First Name, Last Name, DOB, Status).")
          None None), w)
  ∧ shown_messages (fst (ClientFormPage.handleSubmit fetch isEditMode clientId formData w))
    = ["Required fields are missing (First Name, Last Name, DOB, Status)."].
Proof.
  intros Hmissing. apply missing_fields_required in Hmissing.
  rewrite (handleSubmit_missing fetch isEditMode clientId formData w Hmissing).
  split; reflexivity.
Qed.

Lemma missing_fields_one_message_witness :
  let w := (Sample.shows [], Sample.serving []) in
  Spec.missing_fields (Sample.nameless "1990-03-15") = ["first_name"; "last_name"]
  ∧ ClientFormPage.handleSubmit (fetch_app Sample.js) false "" (Sample.nameless "1990-03-15") w
    = (Returned
         (ClientFormPage.Submitted
            (Some "Required fields are missing (First Name, Last Name, DOB, Status).")
            None None), w)
  ∧ shown_messages
      (fst (ClientFormPage.handleSubmit (fetch_app Sample.js) false ""
              (Sample.nameless "1990-03-15") w))
    = ["Required fields are missing (First Name, Last Name, DOB, Status)."].
Proof.
  intros w. split; [reflexivity|].
  apply (missing_fields_one_message (fetch_app Sample.js) false "" (Sample.nameless "1990-03-15") w).
  vm_compute. discriminate.
Defined.

(** C7, as stated, fails: a form with both names empty fails two fields and
    is shown one message, and it is the very message shown for a form that
    lacks only the date of birth. *)
Lemma two_missing_fields_one_message :
  let w := (Sample.shows [], Sample.serving []) in
  let submit formData :=
    fst (ClientFormPage.handleSubmit (fetch_app Sample.js) false "" formData w) in
  Spec.missing_fields (Sample.nameless "1990-03-15") = ["first_name"; "last_name"]
  ∧ shown_messages (submit (Sample.nameless "1990-03-15"))
    = ["Required fields are missing (First Name, Last Name, DOB, Status)."]
  ∧ length (shown_messages (submit (Sample.nameless "1990-03-15")))
    ≠ length (Spec.missing_fields (Sample.nameless "1990-03-15"))
  ∧ Spec.missing_fields (Sample.john "") = ["date_of_birth"]
  ∧ submit (Sample.john "") = submit (Sample.nameless "1990-03-15").
Proof.
  intros w submit. repeat split; try reflexivity. vm_compute. discriminate.
Qed.

(** ** Listing *)

(** [getClients] puts the caller's parameters on the wire as they are,
    whatever the backend answers, and the list page asks for
    [_limit = ITEMS_PER_PAGE = 2] on every request. *)
Theorem list_parameters_are_forwarded (answer : outcome response)
    (params : list (string * string)) currentPage statusFilter previous
    (sent : list request) :
  snd (getClients (recorder answer) params sent) = (sent ++ [ListClients params])%list
  ∧ snd (ClientListPage.fetchClientData (recorder answer) currentPage statusFilter previous sent)
    = (sent ++ [ListClients (ClientListPage.params currentPage statusFilter)])%list
  ∧ carried_limit "_limit" (ListClients (ClientListPage.params currentPage statusFilter))
    = Some 2.
Proof.
  split; [|split].
  - unfold getClients, try_catch, await, recorder.
    destruct answer as [r|e]; simpl; [|done].
    destruct (ok r); simpl; [|done]. by destruct (response_json r).
  - unfold ClientListPage.fetchClientData, getClients, try_catch, await, recorder.
    destruct answer as [r|e]; simpl; [|done].
    destruct (ok r); simpl; [|done]. by destruct (response_json r).
  - reflexivity.
Qed.

(** ** Failures *)

(** C9, as the code has it.  A failure while listing is caught inside
    [getClients], which returns the empty page [{data: [], totalCount: 0}]
    in its place; a failure while loading the reference data is caught
    inside [getReferenceData], which returns [null].  Neither throws. *)
Theorem list_failures_are_caught {S} (fetch : request → async S response)
    (params : list (string * string)) (s : S) :
  (failed (fst (fetch (ListClients params) s)) →
   getClients fetch params s = (Returned no_clients, snd (fetch (ListClients params) s)))
  ∧ (failed (fst (fetch GetReferenceData s)) →
     getReferenceData fetch s = (Returned None, snd (fetch GetReferenceData s))).
Proof.
  split.
  - unfold getClients, try_catch, await, failed.
    destruct (fetch (ListClients params) s) as [[r|e] s']; simpl; [|done].
    intros [Hok|Hbody].
    + by rewrite Hok.
    + destruct (ok r); simpl; [|done]. unfold settle, response_json. by rewrite Hbody.
  - unfold getReferenceData, try_catch, await, failed.
    destruct (fetch GetReferenceData s) as [[r|e] s']; simpl; [|done].
    intros [Hok|Hbody].
    + by rewrite Hok.
    + destruct (ok r); simpl; [|done]. unfold settle, response_json. by rewrite Hbody.
Qed.

Lemma list_failures_are_caught_witness :
  getClients unreachable [("_page", "1"); ("_limit", "2")] tt = (Returned no_clients, tt)
  ∧ getReferenceData unreachable tt = (Returned None, tt).
Proof.
  destruct (list_failures_are_caught unreachable [("_page", "1"); ("_limit", "2")] tt)
    as [Hlist Hreference].
  split; [apply Hlist|apply Hreference]; exact I.
Defined.

(** C9, as stated, fails: with the server out of reach [getClients] does not
    throw; it returns the empty page, which is exactly what it returns when
    the server answers that it holds no clients.  [getReferenceData] does
    not throw either. *)
Lemma unreachable_server_lists_nothing :
  fst (getClients unreachable [("_page", "1"); ("_limit", "2")] tt)
  = Returned (ClientsPage (JClients []) (Some 0))
  ∧ fst (getClients unreachable [("_page", "1"); ("_limit", "2")] tt)
    = fst (getClients empty_store [("_page", "1"); ("_limit", "2")] tt)
  ∧ fst (ClientListPage.fetchClientData unreachable 1 ""
            (ClientListPage.Listed (JClients [Sample.jane]) (Some 1) None) tt)
    = Returned (ClientListPage.Listed (JClients []) (Some 0) None)
  ∧ fst (getReferenceData unreachable tt) = Returned None.
Proof. repeat split; reflexivity. Qed.

(** ** Display names *)

Lemma find_code_absent (entries : list obj) (code : option value) :
  (∀ i : obj, i ∈ entries → i !! "code" ≠ code) →
  List.find (λ i : obj, bool_decide (i !! "code" = code)) entries = None.
Proof.
  induction entries as [|i entries IH]; intros Hnone; simpl; [done|].
  rewrite bool_decide_eq_false_2 by (apply Hnone; left).
  apply IH. intros j Hj. apply Hnone. by right.
Qed.

(** C10.  [getDisplayName] has a result for every kind and code, and that
    result is the code itself when the reference data are absent, when they
    hold no catalog of the kind, and when the catalog of the kind has no
    entry with the code. *)
Theorem getDisplayName_falls_back (type : string) (code : option value) :
  ClientDetailPage.getDisplayName None type code = code
  ∧ (∀ catalogs : reference_data,
       catalogs !! type = None →
       ClientDetailPage.getDisplayName (Some catalogs) type code = code)
  ∧ (∀ (catalogs : reference_data) (entries : list obj),
       catalogs !! type = Some entries →
       (∀ i : obj, i ∈ entries → i !! "code" ≠ code) →
       ClientDetailPage.getDisplayName (Some catalogs) type code = code).
Proof.
  split; [reflexivity|]. split.
  - intros catalogs Hkind. unfold ClientDetailPage.getDisplayName. by rewrite Hkind.
  - intros catalogs entries Hkind Hnone. unfold ClientDetailPage.getDisplayName.
    rewrite Hkind. by rewrite (find_code_absent entries code Hnone).
Qed.

Lemma getDisplayName_falls_back_witness :
  ClientDetailPage.getDisplayName None "client_statuses" (Some (VStr "deleted"))
  = Some (VStr "deleted")
  ∧ ClientDetailPage.getDisplayName (Some Sample.catalogs) "languages" (Some (VStr "en-NZ"))
    = Some (VStr "en-NZ")
  ∧ ClientDetailPage.getDisplayName (Some Sample.catalogs) "client_statuses"
      (Some (VStr "deleted"))
    = Some (VStr "deleted").
Proof.
  destruct (getDisplayName_falls_back "client_statuses" (Some (VStr "deleted")))
    as (Habsent & _ & Hentry).
  destruct (getDisplayName_falls_back "languages" (Some (VStr "en-NZ")))
    as (_ & Hkind & _).
  split; [exact Habsent|]. split.
  - apply Hkind. reflexivity.
  - apply (Hentry Sample.catalogs
             [ ({[ "code" := VStr "active"; "name" := VStr "Active" ]} : obj);
               ({[ "code" := VStr "inactive"; "name" := VStr "Inactive" ]} : obj) ]).
    + reflexivity.
    + intros i Hi. apply elem_of_cons in Hi as [->|Hi]; [vm_compute; discriminate|].
      apply elem_of_cons in Hi as [->|Hi]; [vm_compute; discriminate|].
      by apply not_elem_of_nil in Hi.
Defined.

(** When the catalog does have an entry with the code, the name shown is the
    entry's [name], or else its [display_text]. *)
Lemma getDisplayName_found :
  ClientDetailPage.getDisplayName (Some Sample.catalogs) "client_statuses"
    (Some (VStr "active")) = Some (VStr "Active")
  ∧ ClientDetailPage.getDisplayName (Some Sample.catalogs) "pronouns"
      (Some (VStr "she-her")) = Some (VStr "She/Her").
Proof. split; reflexivity. Qed.

(** * Further properties of the sources *)

(** ** server.js: what a soft delete leaves alone, and how two compose *)

Lemma get_find js clientId st :
  get js clientId st
  = match Server.find clientId (Server.clients st) with
    | Some c => Returned (Some (JClient c))
    | None => Returned None
    end.
Proof.
  unfold get. destruct (Server.find clientId (Server.clients st)) as [c|] eqn:Hc.
  - by rewrite (get_found js clientId st c Hc).
  - by rewrite (get_absent js clientId st Hc).
Qed.

Lemma find_other_assign clientId other source cs :
  other ≠ clientId →
  Server.find other (Server.find_assign clientId source cs) = Server.find other cs.
Proof.
  intros Hne. unfold Server.find. induction cs as [|c0 cs IH]; simpl; [done|].
  case_bool_decide as Hid; simpl.
  - rewrite !bool_decide_eq_false_2; [done|congruence..].
  - by rewrite IH.
Qed.

(** X1.  A soft delete, whether it finds its client or not, keeps the
    identifiers of the collection in their order, and leaves what [get]
    returns for every other identifier as it was. *)
Theorem soft_delete_leaves_others js clientId st :
  map id (Server.clients (snd (Server.app js (DeleteClient clientId) st)))
  = map id (Server.clients st)
  ∧ (∀ other, other ≠ clientId →
       get js other (snd (Server.app js (DeleteClient clientId) st)) = get js other st).
Proof.
  cbn [Server.app].
  destruct (Server.find clientId (Server.clients st)) as [c|] eqn:Hc.
  - rewrite (soft_delete_found clientId st c Hc). cbn [snd Server.clients].
    split; [apply find_assign_ids|].
    intros other Hne. rewrite !get_find. cbn [Server.clients].
    by rewrite find_other_assign.
  - unfold Server.soft_delete. by rewrite Hc.
Qed.

Lemma soft_delete_leaves_others_witness :
  let st := Server.State [Sample.jane; Sample.john_client] (Sample.shows ["2024-12-16T10:00:00.000Z"]) in
  map id (Server.clients (snd (Server.app Sample.js (DeleteClient (id Sample.jane)) st)))
  = [id Sample.jane; "client-1"]
  ∧ get Sample.js "client-1" (snd (Server.app Sample.js (DeleteClient (id Sample.jane)) st))
    = Returned (Some (JClient Sample.john_client)).
Proof.
  intros st.
  destruct (soft_delete_leaves_others Sample.js (id Sample.jane) st) as [Hids Hothers].
  split; [exact Hids|]. rewrite Hothers; [reflexivity|]. vm_compute. discriminate.
Defined.

Lemma find_assign_merge clientId (s1 s2 : obj) cs :
  Server.find_assign clientId s2 (Server.find_assign clientId s1 cs)
  = Server.find_assign clientId (assign s1 s2) cs.
Proof.
  induction cs as [|c0 cs IH]; simpl; [done|].
  case_bool_decide as Hid; simpl.
  - rewrite bool_decide_eq_true_2 by done. simpl. do 2 f_equal.
    unfold assign. by rewrite (assoc_L (∪)).
  - rewrite bool_decide_eq_false_2 by done. by rewrite IH.
Qed.

Lemma assign_deleted_over (t1 t2 : string) :
  assign ({[ "status_code" := VStr "deleted"; "deleted_at" := VStr t1 ]} : obj)
    {[ "status_code" := VStr "deleted"; "deleted_at" := VStr t2 ]}
  = {[ "status_code" := VStr "deleted"; "deleted_at" := VStr t2 ]}.
Proof.
  apply map_eq. intros k. rewrite assign_lookup, !deleted_source_lookup.
  by repeat case_bool_decide.
Qed.

(** X2.  Two soft deletes of the same identifier leave the collection as one
    soft delete made at the time of the second leaves it: the later
    [deleted_at] wins and nothing else differs. *)
Theorem soft_delete_twice js clientId st :
  let later := Server.State (Server.clients st)
                 (Clock (reading (Server.time st)) (S (reads (Server.time st)))) in
  Server.clients
    (snd (Server.app js (DeleteClient clientId)
            (snd (Server.app js (DeleteClient clientId) st))))
  = Server.clients (snd (Server.app js (DeleteClient clientId) later)).
Proof.
  intros later. cbn [Server.app].
  destruct (Server.find clientId (Server.clients st)) as [c|] eqn:Hc.
  - rewrite (soft_delete_found clientId st c Hc). cbn [snd].
    erewrite soft_delete_found by (simpl; by apply find_find_assign).
    rewrite (soft_delete_found clientId later c Hc).
    cbn [snd Server.clients Server.time]. unfold now. cbn [reading reads].
    by rewrite find_assign_merge, assign_deleted_over.
  - unfold Server.soft_delete at 2. rewrite Hc. cbn [snd].
    unfold Server.soft_delete. subst later. cbn [Server.clients]. by rewrite Hc.
Qed.

(** ** api.js against the server *)

(** X3.  [deleteClient] returns [{success: true}] exactly for an identifier
    that the route's own lookup finds, a client stored under that very
    string, the store then being as the soft delete leaves it; for an
    identifier that the lookup does not find it throws "HTTP error! status:
    404, message: Failed to delete client" (the server's code
    CLIENT_NOT_FOUND is a string, so it has no [message] to show) and the
    store is unchanged. *)
Theorem deleteClient_against_server js clientId st :
  (∀ c, Server.find clientId (Server.clients st) = Some c →
     deleteClient (fetch_app js) clientId st
     = (Returned (Deleted true None), snd (Server.app js (DeleteClient clientId) st)))
  ∧ (Server.find clientId (Server.clients st) = None →
     deleteClient (fetch_app js) clientId st
     = (Thrown (Error "HTTP error! status: 404, message: Failed to delete client"), st)).
Proof.
  split.
  - intros c Hc. unfold deleteClient, try_catch, await, fetch_app. cbn [Server.app].
    by rewrite (soft_delete_found clientId st c Hc).
  - intros Hnone. unfold deleteClient, try_catch, await, fetch_app. cbn [Server.app].
    unfold Server.soft_delete. by rewrite Hnone.
Qed.

Lemma deleteClient_against_server_witness :
  let st := Sample.serving ["2024-12-16T10:00:00.000Z"] in
  deleteClient (fetch_app Sample.js) (id Sample.jane) st
  = (Returned (Deleted true None),
     snd (Server.app Sample.js (DeleteClient (id Sample.jane)) st))
  ∧ deleteClient (fetch_app Sample.js) "no-such-client" st
    = (Thrown (Error "HTTP error! status: 404, message: Failed to delete client"), st).
Proof.
  intros st. split.
  - destruct (deleteClient_against_server Sample.js (id Sample.jane) st) as [Hfound _].
    apply (Hfound Sample.jane). reflexivity.
  - destruct (deleteClient_against_server Sample.js "no-such-client" st) as [_ Habsent].
    apply Habsent. reflexivity.
Defined.

(** ** api.js against any backend *)

(** X4.  For every backend whose JSON bodies are objects or arrays (never
    the literal [null]): [getClientById] returns [null] only for a response
    with status 404, returns a document only when the response is OK and
    that document is its body, and hands on a rejection of [fetch] as it
    is. *)
Theorem getClientById_null_means_404 {S} (fetch : request → async S response)
    (clientId : string) (s : S) :
  (fst (getClientById fetch clientId s) = Returned None →
   ∃ r, fst (fetch (GetClient clientId) s) = Returned r ∧ status r = 404)
  ∧ (∀ data, fst (getClientById fetch clientId s) = Returned (Some data) →
       ∃ r, fst (fetch (GetClient clientId) s) = Returned r
            ∧ ok r = true ∧ body r = Some data)
  ∧ (∀ e, fst (fetch (GetClient clientId) s) = Thrown e →
       fst (getClientById fetch clientId s) = Thrown e).
Proof.
  unfold getClientById, try_catch, await, throw, ret, settle, response_json.
  destruct (fetch (GetClient clientId) s) as [[r|e0] s']; cbn [fst].
  - destruct (ok r) eqn:Hok; cbn [negb].
    + destruct (body r) as [j|] eqn:Hbody; cbn [fst].
      * split; [discriminate|]. split; [|discriminate].
        intros data [= <-]. by exists r.
      * split; [discriminate|]. split; discriminate.
    + case_bool_decide as H404; cbn [fst].
      * split; [by exists r|]. split; discriminate.
      * split; [discriminate|]. split; discriminate.
  - split; [discriminate|]. split; [discriminate|]. by intros e [= ->].
Qed.

Lemma getClientById_null_means_404_witness :
  let st := Sample.serving [] in
  (∃ r, fst (fetch_app Sample.js (GetClient "no-such-client") st) = Returned r
        ∧ status r = 404)
  ∧ (∃ r, fst (fetch_app Sample.js (GetClient (id Sample.jane)) st) = Returned r
          ∧ ok r = true ∧ body r = Some (JClient Sample.jane))
  ∧ fst (getClientById unreachable "any" tt) = Thrown (Error "Failed to fetch").
Proof.
  intros st.
  destruct (getClientById_null_means_404 (fetch_app Sample.js) "no-such-client" st)
    as (Hnull & _ & _).
  destruct (getClientById_null_means_404 (fetch_app Sample.js) (id Sample.jane) st)
    as (_ & Hdata & _).
  destruct (getClientById_null_means_404 unreachable "any" tt) as (_ & _ & Hrejected).
  split; [apply Hnull; reflexivity|].
  split; [apply Hdata; reflexivity|apply Hrejected; reflexivity].
Defined.

(** X5.  Whatever the backend, [createClient] and [updateClient] return a
    document only when the response is OK and that document is its body:
    on any other response, and when [fetch] rejects, they throw. *)
Theorem create_and_update_return_only_ok {S} (fetch : request → async S response)
    (clientId : string) (clientData : obj) (s : S) (document : json) :
  (fst (createClient fetch clientData s) = Returned document →
   ∃ r, fst (fetch (PostClient clientData) s) = Returned r
        ∧ ok r = true ∧ body r = Some document)
  ∧ (fst (updateClient fetch clientId clientData s) = Returned document →
     ∃ r, fst (fetch (PatchClient clientId clientData) s) = Returned r
          ∧ ok r = true ∧ body r = Some document).
Proof.
  split.
  - unfold createClient, try_catch, await, throw, ret, settle, response_json.
    destruct (fetch (PostClient clientData) s) as [[r|e0] s']; cbn [fst]; [|discriminate].
    destruct (ok r) eqn:Hok; cbn [negb];
      destruct (body r) as [j|] eqn:Hbody; cbn [fst]; try discriminate.
    intros [= <-]. by exists r.
  - unfold updateClient, try_catch, await, throw, ret, settle, response_json.
    destruct (fetch (PatchClient clientId clientData) s) as [[r|e0] s']; cbn [fst];
      [|discriminate].
    destruct (ok r) eqn:Hok; cbn [negb];
      destruct (body r) as [j|] eqn:Hbody; cbn [fst]; try discriminate.
    intros [= <-]. by exists r.
Qed.

Lemma create_and_update_return_only_ok_witness :
  let st := Sample.serving [] in
  let created := Client "client-1" Sample.john_data in
  let updated := Client (id Sample.jane) (assign (attrs Sample.jane) Sample.john_data) in
  (∃ r, fst (fetch_app Sample.js (PostClient Sample.john_data) st) = Returned r
        ∧ ok r = true ∧ body r = Some (JClient created))
  ∧ (∃ r, fst (fetch_app Sample.js (PatchClient (id Sample.jane) Sample.john_data) st)
          = Returned r
          ∧ ok r = true ∧ body r = Some (JClient updated)).
Proof.
  intros st created updated. split.
  - destruct (create_and_update_return_only_ok (fetch_app Sample.js) ""
                Sample.john_data st (JClient created)) as [Hcreate _].
    apply Hcreate. vm_compute. reflexivity.
  - destruct (create_and_update_return_only_ok (fetch_app Sample.js) (id Sample.jane)
                Sample.john_data st (JClient updated)) as [_ Hupdate].
    apply Hupdate. vm_compute. reflexivity.
Defined.

(** X6.  Whatever the backend, [getClients] and [getReferenceData] return
    and never throw; and when the page that [getClients] returns has a
    total of 0, its list of clients is empty. *)
Theorem list_and_reference_always_return {S} (fetch : request → async S response)
    (params : list (string * string)) (s : S) :
  (∃ page, fst (getClients fetch params s) = Returned page
           ∧ (∀ cs, data page = JClients cs → totalCount page = Some 0 → cs = []))
  ∧ (∃ refData, fst (getReferenceData fetch s) = Returned refData).
Proof.
  split.
  - unfold getClients, try_catch, await, throw, ret, settle, response_json.
    destruct (fetch (ListClients params) s) as [[r|e0] s']; cbn [fst].
    + destruct (ok r); cbn [negb fst].
      * destruct (body r) as [j|]; cbn [fst].
        -- eexists. split; [reflexivity|]. cbn [data totalCount].
           intros cs -> Hzero. unfold parsed_or_length, length_of in Hzero.
           destruct (parseInt _) as [n|].
           ++ case_bool_decide.
              ** injection Hzero as Hzero. by destruct cs.
              ** congruence.
           ++ injection Hzero as Hzero. by destruct cs.
        -- eexists. split; [reflexivity|]. by intros cs [= <-].
      * eexists. split; [reflexivity|]. by intros cs [= <-].
    + eexists. split; [reflexivity|]. by intros cs [= <-].
  - unfold getReferenceData, try_catch, await, throw, ret, settle, response_json.
    destruct (fetch GetReferenceData s) as [[r|e0] s']; cbn [fst]; [|by eexists].
    destruct (ok r); cbn [negb fst]; [|by eexists].
    destruct (body r); cbn [fst]; by eexists.
Qed.

Lemma list_and_reference_always_return_witness :
  (∃ page, fst (getClients empty_store [] tt) = Returned page
           ∧ (∀ cs, data page = JClients cs → totalCount page = Some 0 → cs = []))
  ∧ (∃ refData, fst (getReferenceData unreachable tt) = Returned refData).
Proof.
  destruct (list_and_reference_always_return empty_store [] tt) as [Hlist _].
  destruct (list_and_reference_always_return unreachable [] tt) as [_ Hreference].
  split; [exact Hlist|exact Hreference].
Defined.

(** ** api.js against the server: create and update *)

Lemma find_snoc clientId (cs : list client) c :
  Server.find clientId (cs ++ [c])%list
  = match Server.find clientId cs with
    | Some found => Some found
    | None => if bool_decide (id c = clientId) then Some c else None
    end.
Proof.
  unfold Server.find. induction cs as [|c0 cs IH]; simpl; [done|].
  destruct (bool_decide (id c0 = clientId)); [done|apply IH].
Qed.

(** X7.  A client created under an unused identifier can be read back:
    [createClient] returns the document sent under its new identifier,
    [get] of that identifier then returns the same document, and [get] of
    every other identifier returns what it returned before. *)
Theorem create_then_get js (clientData : obj) st :
  clientData !! "id" = None →
  Server.find (Server.createId js (Server.clients st)) (Server.clients st) = None →
  ∃ c st',
    createClient (fetch_app js) clientData st = (Returned (JClient c), st')
    ∧ attrs c = clientData
    ∧ get js (id c) st' = Returned (Some (JClient c))
    ∧ (∀ other, other ≠ id c → get js other st' = get js other st).
Proof.
  intros Hid Hfresh. rewrite (createClient_fresh js clientData st Hid Hfresh).
  eexists _, _. split; [reflexivity|]. split; [reflexivity|]. cbn [id]. split.
  - rewrite get_find. cbn [Server.clients]. rewrite find_snoc, Hfresh. cbn [id].
    by rewrite bool_decide_eq_true_2.
  - intros other Hne. rewrite !get_find. cbn [Server.clients]. rewrite find_snoc.
    destruct (Server.find other (Server.clients st)); [done|].
    cbn [id]. by rewrite bool_decide_eq_false_2.
Qed.

Lemma create_then_get_witness :
  let st := Sample.serving [] in
  ∃ c st',
    createClient (fetch_app Sample.js) Sample.john_data st = (Returned (JClient c), st')
    ∧ attrs c = Sample.john_data
    ∧ get Sample.js (id c) st' = Returned (Some (JClient c))
    ∧ (∀ other, other ≠ id c → get Sample.js other st' = get Sample.js other st).
Proof.
  intros st. apply (create_then_get Sample.js Sample.john_data st); reflexivity.
Defined.

(** X8.  [updateClient] on a client that the store holds merges the data
    sent into it: afterwards [get] returns the document under the same
    identifier, each field of the data with its new value and every other
    field as it was; the identifiers of the collection keep their order and
    [get] of every other identifier returns what it returned before. *)
Theorem update_merges js clientId (clientData : obj) st c :
  clientData !! "id" = None →
  Server.find clientId (Server.clients st) = Some c →
  ∃ c' st',
    updateClient (fetch_app js) clientId clientData st = (Returned (JClient c'), st')
    ∧ get js clientId st' = Returned (Some (JClient c'))
    ∧ id c' = id c
    ∧ (∀ k, attrs c' !! k
            = match clientData !! k with Some v => Some v | None => attrs c !! k end)
    ∧ map id (Server.clients st') = map id (Server.clients st)
    ∧ (∀ other, other ≠ clientId → get js other st' = get js other st).
Proof.
  intros Hid Hc. rewrite (updateClient_found js clientId clientData st c Hid Hc).
  eexists _, _. split; [reflexivity|]. split.
  - rewrite get_find. cbn [Server.clients]. by rewrite (find_find_assign _ _ _ _ Hc).
  - cbn [id attrs Server.clients]. split; [reflexivity|]. split.
    + intros k. apply assign_lookup.
    + split; [apply find_assign_ids|].
      intros other Hne. rewrite !get_find. cbn [Server.clients].
      by rewrite find_other_assign.
Qed.

Lemma update_merges_witness :
  let st := Server.State [Sample.jane; Sample.john_client] (Sample.shows []) in
  let phone : obj := {[ "phone" := VStr "+64 21 987 6543" ]} in
  ∃ c' st',
    updateClient (fetch_app Sample.js) (id Sample.jane) phone st = (Returned (JClient c'), st')
    ∧ get Sample.js (id Sample.jane) st' = Returned (Some (JClient c'))
    ∧ id c' = id Sample.jane
    ∧ (∀ k, attrs c' !! k
            = match phone !! k with Some v => Some v | None => attrs Sample.jane !! k end)
    ∧ map id (Server.clients st') = [id Sample.jane; "client-1"]
    ∧ (∀ other, other ≠ id Sample.jane → get Sample.js other st' = get Sample.js other st).
Proof.
  intros st phone.
  apply (update_merges Sample.js (id Sample.jane) phone st Sample.jane); reflexivity.
Defined.

(** ** ClientListPage.js *)

Lemma getClients_returns {S} (fetch : request → async S response)
    (params : list (string * string)) (s : S) :
  ∃ page s', getClients fetch params s = (Returned page, s').
Proof.
  unfold getClients, try_catch, await, throw, ret, settle, response_json.
  destruct (fetch (ListClients params) s) as [[r|e0] s']; [|by eexists _, _].
  destruct (ok r); cbn [negb]; [|by eexists _, _].
  destruct (body r); by eexists _, _.
Qed.

Lemma getReferenceData_returns {S} (fetch : request → async S response) (s : S) :
  ∃ refData s', getReferenceData fetch s = (Returned refData, s').
Proof.
  unfold getReferenceData, try_catch, await, throw, ret, settle, response_json.
  destruct (fetch GetReferenceData s) as [[r|e0] s']; [|by eexists _, _].
  destruct (ok r); cbn [negb]; [|by eexists _, _].
  destruct (body r); by eexists _, _.
Qed.

(** X9.  Whatever the backend, [fetchClientData] never sets the page's
    error: [getClients] has caught every failure before the page's own
    [catch] could see it. *)
Theorem list_page_never_shows_error {S} (fetch : request → async S response)
    currentPage statusFilter previous (s : S) :
  ∃ shown,
    fst (ClientListPage.fetchClientData fetch currentPage statusFilter previous s)
    = Returned shown
    ∧ ClientListPage.page_error shown = None.
Proof.
  unfold ClientListPage.fetchClientData, try_catch, await at 1.
  destruct (getClients_returns fetch (ClientListPage.params currentPage statusFilter) s)
    as (page & s' & ->).
  by eexists.
Qed.

(** X10.  The pages of the list cover the clients exactly: the last page is
    needed and no client lies beyond it.  With the page in range, Previous
    and Next keep it in range, Previous stays on the first page and Next on
    the last. *)
Theorem pagination_in_range (totalClients p : Z) :
  (ClientListPage.ITEMS_PER_PAGE * (ClientListPage.totalPages totalClients - 1) < totalClients
   ∧ totalClients ≤ ClientListPage.ITEMS_PER_PAGE * ClientListPage.totalPages totalClients)
  ∧ (1 ≤ p ≤ ClientListPage.totalPages totalClients →
     1 ≤ ClientListPage.previous_page p ≤ ClientListPage.totalPages totalClients
     ∧ 1 ≤ ClientListPage.next_page totalClients p ≤ ClientListPage.totalPages totalClients
     ∧ ClientListPage.previous_page 1 = 1
     ∧ ClientListPage.next_page totalClients (ClientListPage.totalPages totalClients)
       = ClientListPage.totalPages totalClients).
Proof.
  unfold ClientListPage.totalPages, ClientListPage.previous_page,
    ClientListPage.next_page, ClientListPage.totalPages, ClientListPage.ITEMS_PER_PAGE.
  pose proof (Z.div_mod (- totalClients) 2 ltac:(lia)) as Hdiv.
  pose proof (Z.mod_pos_bound (- totalClients) 2 ltac:(lia)) as Hmod.
  split; [lia|]. intros Hp. lia.
Qed.

Lemma pagination_in_range_witness :
  (2 * (ClientListPage.totalPages 5 - 1) < 5 ∧ 5 ≤ 2 * ClientListPage.totalPages 5)
  ∧ 1 ≤ ClientListPage.previous_page 3 ≤ ClientListPage.totalPages 5
  ∧ 1 ≤ ClientListPage.next_page 5 3 ≤ ClientListPage.totalPages 5
  ∧ ClientListPage.previous_page 1 = 1
  ∧ ClientListPage.next_page 5 (ClientListPage.totalPages 5) = ClientListPage.totalPages 5.
Proof.
  destruct (pagination_in_range 5 3) as [Hcover Hrange].
  split; [exact Hcover|]. apply Hrange. vm_compute. split; discriminate.
Defined.

(** X11.  The status cell of the list and the status name of the detail
    page agree, whatever the reference data, as long as the entry found for
    the code (if there is one) has a name: both show that name, and both
    show the code itself when there is no entry or no reference data. *)
Theorem status_cell_agrees_with_detail (refData : option reference_data)
    (status_code : option value) :
  (∀ entry,
     List.find (λ s : obj, bool_decide (s !! "code" = status_code))
       (ClientListPage.clientStatuses refData) = Some entry →
     truthy (entry !! "name") = true) →
  ClientListPage.status_cell (ClientListPage.clientStatuses refData) status_code
  = ClientDetailPage.getDisplayName refData "client_statuses" status_code.
Proof.
  intros Hname.
  unfold ClientListPage.status_cell, ClientDetailPage.getDisplayName,
    ClientListPage.clientStatuses in *.
  destruct refData as [catalogs|]; [|reflexivity].
  destruct (catalogs !! "client_statuses") as [entries|]; simpl in *; [|reflexivity].
  destruct (List.find _ entries) as [entry|]; [|reflexivity].
  unfold or. by rewrite (Hname entry eq_refl).
Qed.

Lemma status_cell_agrees_with_detail_witness :
  ClientListPage.status_cell (ClientListPage.clientStatuses (Some Sample.catalogs))
    (Some (VStr "inactive"))
  = ClientDetailPage.getDisplayName (Some Sample.catalogs) "client_statuses"
      (Some (VStr "inactive")).
Proof.
  apply (status_cell_agrees_with_detail (Some Sample.catalogs) (Some (VStr "inactive"))).
  intros entry Hentry. vm_compute in Hentry. injection Hentry as <-. reflexivity.
Defined.

(** ** ClientFormPage.js *)

(** X12.  Whatever the backend, a submit never throws and ends in exactly
    one of two ways: with an error on the form and neither alert nor
    navigation, or with no error, an alert and a navigation. *)
Theorem submit_ends_one_way {S} (fetch : request → async S response)
    isEditMode clientId formData (w : clock * S) :
  ∃ page,
    fst (ClientFormPage.handleSubmit fetch isEditMode clientId formData w) = Returned page
    ∧ ((is_Some (ClientFormPage.formError page)
        ∧ ClientFormPage.alert page = None ∧ ClientFormPage.navigate page = None)
       ∨ (ClientFormPage.formError page = None
          ∧ is_Some (ClientFormPage.alert page) ∧ is_Some (ClientFormPage.navigate page))).
Proof.
  destruct w as [clk s]. unfold ClientFormPage.handleSubmit.
  destruct (ClientFormPage.required_missing formData).
  - eexists. split; [reflexivity|]. left. cbn. eauto.
  - destruct isEditMode;
      unfold await, try_catch, ret, ClientFormPage.new_Date, ClientFormPage.backend,
        new_Date_toISOString; cbn [fst snd].
    + destruct (updateClient fetch _ _ s) as [[document|e] s']; cbn [fst];
        (eexists; split; [reflexivity|]); [right|left]; cbn; eauto.
    + destruct (createClient fetch _ s) as [[document|e] s']; cbn [fst];
        (eexists; split; [reflexivity|]); [right|left]; cbn; eauto.
Qed.

Lemma spread_lookup (formData : ClientFormPage.form_data) (k : string) :
  ClientFormPage.spread formData !! k
  = if bool_decide (k = "first_name") then Some (ClientFormPage.first_name formData)
    else if bool_decide (k = "last_name") then Some (ClientFormPage.last_name formData)
    else if bool_decide (k = "date_of_birth") then Some (ClientFormPage.date_of_birth formData)
    else if bool_decide (k = "email") then Some (ClientFormPage.email formData)
    else if bool_decide (k = "phone") then Some (ClientFormPage.phone formData)
    else if bool_decide (k = "status_code") then Some (ClientFormPage.status_code formData)
    else if bool_decide (k = "primary_language_code")
         then Some (ClientFormPage.primary_language_code formData)
    else if bool_decide (k = "pronoun_code") then Some (ClientFormPage.pronoun_code formData)
    else if bool_decide (k = "sex") then Some (ClientFormPage.sex formData)
    else if bool_decide (k = "interpreter_needed")
         then Some (ClientFormPage.interpreter_needed formData)
    else None.
Proof.
  unfold ClientFormPage.spread.
  repeat (case_bool_decide;
          [subst k; by simplify_map_eq|rewrite lookup_insert_ne by done]).
  case_bool_decide; [subst k; by simplify_map_eq|by rewrite lookup_singleton_ne].
Qed.

(** The fields of a client after an edit through the form. *)
Lemma edit_lookup js clientId formData clk st c :
  ClientFormPage.required_missing formData = false →
  Server.find clientId (Server.clients st) = Some c →
  ∃ c',
    get js clientId
      (snd (snd (ClientFormPage.handleSubmit (fetch_app js) true clientId formData (clk, st))))
    = Returned (Some (JClient c'))
    ∧ id c' = id c
    ∧ ∀ k, attrs c' !! k
           = if bool_decide (k = "updated_at") then Some (VStr (now clk))
             else match ClientFormPage.spread formData !! k with
                  | Some v => Some v
                  | None => attrs c !! k
                  end.
Proof.
  intros Hreq Hc. rewrite (handleSubmit_edit js clientId formData clk st c Hreq Hc).
  cbn [snd]. rewrite get_find. cbn [Server.clients].
  rewrite (find_find_assign _ _ _ _ Hc). eexists. split; [reflexivity|].
  cbn [id attrs]. split; [reflexivity|]. intros k.
  rewrite !assign_lookup. case_bool_decide as Hk.
  - subst k. by simplify_map_eq.
  - by rewrite lookup_singleton_ne.
Qed.

Lemma clientDataForForm_lookup (c : client) (k : string) :
  k ≠ "interpreter_needed" →
  match ClientFormPage.spread (ClientFormPage.clientDataForForm c) !! k with
  | Some v => Some v
  | None => attrs c !! k
  end
  = match attrs c !! k with
    | Some v => Some v
    | None => ClientFormPage.spread ClientFormPage.initialFormState !! k
    end.
Proof.
  intros Hk. rewrite !spread_lookup. unfold ClientFormPage.clientDataForForm.
  cbn [ClientFormPage.first_name ClientFormPage.last_name ClientFormPage.date_of_birth
       ClientFormPage.email ClientFormPage.phone ClientFormPage.status_code
       ClientFormPage.primary_language_code ClientFormPage.pronoun_code
       ClientFormPage.sex ClientFormPage.interpreter_needed
       ClientFormPage.initialFormState].
  repeat (case_bool_decide; [subst k; by destruct (attrs c !! _)|]).
  by destruct (attrs c !! k).
Qed.

(** X13.  An edit that is loaded into the form and submitted as it is
    changes the stored client only so: [updated_at] becomes the time of the
    submit, [interpreter_needed] becomes a boolean, and a field of the form
    that the client did not have is added, empty.  Every field that the
    client had, [created_at] and [deleted_at] among them, keeps its value,
    and so does the identifier. *)
Theorem edit_unchanged_keeps_fields js clientId clk st c :
  Server.find clientId (Server.clients st) = Some c →
  ClientFormPage.required_missing (ClientFormPage.clientDataForForm c) = false →
  ∃ c',
    get js clientId
      (snd (snd (ClientFormPage.handleSubmit (fetch_app js) true clientId
                   (ClientFormPage.clientDataForForm c) (clk, st))))
    = Returned (Some (JClient c'))
    ∧ id c' = id c
    ∧ attrs c' !! "updated_at" = Some (VStr (now clk))
    ∧ attrs c' !! "interpreter_needed"
      = Some (VBool (truthy (attrs c !! "interpreter_needed")))
    ∧ (∀ k, k ≠ "updated_at" → k ≠ "interpreter_needed" →
         attrs c' !! k
         = match attrs c !! k with
           | Some v => Some v
           | None => ClientFormPage.spread ClientFormPage.initialFormState !! k
           end).
Proof.
  intros Hc Hreq.
  destruct (edit_lookup js clientId _ clk st c Hreq Hc) as (c' & Hget & Hid & Hfields).
  exists c'. split; [exact Hget|]. split; [exact Hid|]. split; [|split].
  - by rewrite Hfields.
  - by rewrite Hfields.
  - intros k Hu Hi. rewrite Hfields, bool_decide_eq_false_2 by done.
    by apply clientDataForForm_lookup.
Qed.

Lemma edit_unchanged_keeps_fields_witness :
  let clk := Sample.shows ["2024-12-16T10:00:00.000Z"] in
  let st := Sample.serving [] in
  ∃ c',
    get Sample.js (id Sample.jane)
      (snd (snd (ClientFormPage.handleSubmit (fetch_app Sample.js) true (id Sample.jane)
                   (ClientFormPage.clientDataForForm Sample.jane) (clk, st))))
    = Returned (Some (JClient c'))
    ∧ id c' = id Sample.jane
    ∧ attrs c' !! "updated_at" = Some (VStr "2024-12-16T10:00:00.000Z")
    ∧ attrs c' !! "interpreter_needed" = Some (VBool false)
    ∧ (∀ k, k ≠ "updated_at" → k ≠ "interpreter_needed" →
         attrs c' !! k
         = match attrs Sample.jane !! k with
           | Some v => Some v
           | None => ClientFormPage.spread ClientFormPage.initialFormState !! k
           end).
Proof.
  intros clk st.
  apply (edit_unchanged_keeps_fields Sample.js (id Sample.jane) clk st Sample.jane);
    reflexivity.
Defined.

(** Settle the comparisons of two field names that are both known. *)
Local Ltac settle_names :=
  repeat match goal with
         | |- context [@bool_decide (?a = ?b) ?d] =>
             let v := eval vm_compute in (@bool_decide (a = b) d) in
             match v with
             | true => change (@bool_decide (a = b) d) with true
             | false => change (@bool_decide (a = b) d) with false
             end
         end.

Local Ltac changed_field name key :=
  destruct (decide (name = key)) as [->|?];
  [settle_names; rewrite !spread_lookup; cbn; repeat case_bool_decide; congruence|].

Lemma handleChange_lookup (name text type : string) (checked : bool)
    (prev : ClientFormPage.form_data) (k : string) :
  is_Some (ClientFormPage.spread ClientFormPage.initialFormState !! name) →
  ClientFormPage.spread (ClientFormPage.handleChange name text type checked prev) !! k
  = if bool_decide (k = name)
    then Some (if bool_decide (type = "checkbox") then VBool checked else VStr text)
    else ClientFormPage.spread prev !! k.
Proof.
  intros Hname. rewrite spread_lookup in Hname.
  destruct prev as [f l d e p s g n x i]. unfold ClientFormPage.handleChange.
  changed_field name "first_name".
  changed_field name "last_name".
  changed_field name "date_of_birth".
  changed_field name "email".
  changed_field name "phone".
  changed_field name "status_code".
  changed_field name "primary_language_code".
  changed_field name "pronoun_code".
  changed_field name "sex".
  changed_field name "interpreter_needed".
  rewrite !bool_decide_eq_false_2 in Hname by done. by apply is_Some_None in Hname.
Qed.

(** X14.  An edit that changes one input of the form after loading writes
    that input's value into the stored client and, apart from [updated_at]
    and [interpreter_needed], changes no field that the client had; the
    fields outside the form are never touched. *)
Theorem edit_one_field js clientId clk st c (name text type : string) (checked : bool) :
  Server.find clientId (Server.clients st) = Some c →
  is_Some (ClientFormPage.spread ClientFormPage.initialFormState !! name) →
  ClientFormPage.required_missing
    (ClientFormPage.handleChange name text type checked
       (ClientFormPage.clientDataForForm c)) = false →
  ∃ c',
    get js clientId
      (snd (snd (ClientFormPage.handleSubmit (fetch_app js) true clientId
                   (ClientFormPage.handleChange name text type checked
                      (ClientFormPage.clientDataForForm c)) (clk, st))))
    = Returned (Some (JClient c'))
    ∧ id c' = id c
    ∧ attrs c' !! name
      = Some (if bool_decide (type = "checkbox") then VBool checked else VStr text)
    ∧ (∀ k, k ≠ name → k ≠ "updated_at" → k ≠ "interpreter_needed" →
         attrs c' !! k
         = match attrs c !! k with
           | Some v => Some v
           | None => ClientFormPage.spread ClientFormPage.initialFormState !! k
           end).
Proof.
  intros Hc Hname Hreq.
  destruct (edit_lookup js clientId _ clk st c Hreq Hc) as (c' & Hget & Hid & Hfields).
  assert (Hstamp : name ≠ "updated_at").
  { intros ->. vm_compute in Hname. by apply is_Some_None in Hname. }
  exists c'. split; [exact Hget|]. split; [exact Hid|]. split.
  - rewrite Hfields, (handleChange_lookup _ _ _ _ _ _ Hname).
    rewrite (bool_decide_eq_false_2 (name = "updated_at")) by done.
    by rewrite (bool_decide_eq_true_2 (name = name)).
  - intros k Hk Hu Hi. rewrite Hfields, (handleChange_lookup _ _ _ _ _ _ Hname).
    rewrite !bool_decide_eq_false_2 by done. by apply clientDataForForm_lookup.
Qed.

Lemma edit_one_field_witness :
  let clk := Sample.shows ["2024-12-16T10:00:00.000Z"] in
  let st := Sample.serving [] in
  ∃ c',
    get Sample.js (id Sample.jane)
      (snd (snd (ClientFormPage.handleSubmit (fetch_app Sample.js) true (id Sample.jane)
                   (ClientFormPage.handleChange "phone" "+64 21 987 6543" "tel" false
                      (ClientFormPage.clientDataForForm Sample.jane)) (clk, st))))
    = Returned (Some (JClient c'))
    ∧ id c' = id Sample.jane
    ∧ attrs c' !! "phone" = Some (VStr "+64 21 987 6543")
    ∧ (∀ k, k ≠ "phone" → k ≠ "updated_at" → k ≠ "interpreter_needed" →
         attrs c' !! k
         = match attrs Sample.jane !! k with
           | Some v => Some v
           | None => ClientFormPage.spread ClientFormPage.initialFormState !! k
           end).
Proof.
  intros clk st.
  apply (edit_one_field Sample.js (id Sample.jane) clk st Sample.jane
           "phone" "+64 21 987 6543" "tel" false).
  - reflexivity.
  - exists (VStr ""). reflexivity.
  - reflexivity.
Defined.

(** ** ClientDetailPage.js *)

(** X15.  Whatever the backend, [fetchDetails] never throws, and what error
    it sets depends on the fetch of the client alone: none when the client
    arrives, "Client not found." for [null], "Failed to fetch client
    details." when that fetch throws, the client and reference data then
    staying as they were.  A failure of the reference data sets no error. *)
Theorem detail_error_is_the_clients {S} (fetch : request → async S response)
    (clientId : string) (previous : ClientDetailPage.detail) (s : S) :
  ∃ d,
    fst (ClientDetailPage.fetchDetails fetch clientId previous s) = Returned d
    ∧ match fst (getClientById fetch clientId s) with
      | Returned (Some document) =>
          ClientDetailPage.detail_client d = Some document
          ∧ ClientDetailPage.detail_error d = None
      | Returned None =>
          ClientDetailPage.detail_client d = None
          ∧ ClientDetailPage.detail_error d = Some "Client not found."
      | Thrown _ =>
          ClientDetailPage.detail_client d = ClientDetailPage.detail_client previous
          ∧ ClientDetailPage.detail_referenceData d
            = ClientDetailPage.detail_referenceData previous
          ∧ ClientDetailPage.detail_error d = Some "Failed to fetch client details."
      end.
Proof.
  unfold ClientDetailPage.fetchDetails, try_catch, await at 1.
  destruct (getClientById fetch clientId s) as [[clientData|e] s1]; cbn [fst].
  - unfold await. destruct (getReferenceData_returns fetch s1) as (refData & s2 & ->).
    eexists. split; [reflexivity|]. by destruct clientData.
  - eexists. split; [reflexivity|]. done.
Qed.

(** X16.  A client that has been soft-deleted is still shown by the detail
    page: with reference data that have no status "deleted", [fetchDetails]
    sets the client without an error, the status name shown for it is the
    code "deleted" itself, and its other fields are those it had. *)
Theorem deleted_client_is_still_shown js clientId st c previous
    (catalogs : reference_data) total :
  Server.find clientId (Server.clients st) = Some c →
  Server.reference_route js = Response 200 total (Some (JReference catalogs)) →
  (∀ entry : obj,
     entry ∈ default [] (catalogs !! "client_statuses") →
     entry !! "code" ≠ Some (VStr "deleted")) →
  ∃ c',
    fst (ClientDetailPage.fetchDetails (fetch_app js) clientId previous
           (snd (Server.app js (DeleteClient clientId) st)))
    = Returned (ClientDetailPage.Detail (Some (JClient c')) (Some (JReference catalogs)) None)
    ∧ ClientDetailPage.getDisplayName (Some catalogs) "client_statuses"
        (attrs c' !! "status_code")
      = Some (VStr "deleted")
    ∧ (∀ k, k ≠ "status_code" → k ≠ "deleted_at" → attrs c' !! k = attrs c !! k).
Proof.
  intros Hc Hreference Hnone. cbn [Server.app].
  rewrite (soft_delete_found clientId st c Hc). cbn [snd].
  unfold ClientDetailPage.fetchDetails, try_catch, await at 1.
  erewrite get_found by (simpl; by apply find_find_assign).
  unfold await, getReferenceData, try_catch, await, fetch_app.
  cbn [Server.app Server.router]. rewrite Hreference.
  eexists. split; [reflexivity|]. cbn [attrs]. split.
  - rewrite assign_lookup, deleted_source_lookup.
    rewrite (bool_decide_eq_true_2 ("status_code" = "status_code")) by done.
    unfold ClientDetailPage.getDisplayName.
    destruct (catalogs !! "client_statuses") as [entries|]; [|done].
    by rewrite (find_code_absent entries (Some (VStr "deleted")) Hnone).
  - intros k Hs Hd. rewrite assign_lookup, deleted_source_lookup.
    by rewrite !bool_decide_eq_false_2.
Qed.

Lemma deleted_client_is_still_shown_witness :
  let st := Sample.serving ["2024-12-16T10:00:00.000Z"] in
  ∃ c',
    fst (ClientDetailPage.fetchDetails (fetch_app Sample.js) (id Sample.jane)
           (ClientDetailPage.Detail None None None)
           (snd (Server.app Sample.js (DeleteClient (id Sample.jane)) st)))
    = Returned (ClientDetailPage.Detail (Some (JClient c'))
                  (Some (JReference Sample.catalogs)) None)
    ∧ ClientDetailPage.getDisplayName (Some Sample.catalogs) "client_statuses"
        (attrs c' !! "status_code")
      = Some (VStr "deleted")
    ∧ (∀ k, k ≠ "status_code" → k ≠ "deleted_at" → attrs c' !! k = attrs Sample.jane !! k).
Proof.
  intros st.
  apply (deleted_client_is_still_shown Sample.js (id Sample.jane) st Sample.jane
           (ClientDetailPage.Detail None None None) Sample.catalogs None).
  - reflexivity.
  - reflexivity.
  - intros entry Hentry. vm_compute in Hentry.
    apply elem_of_cons in Hentry as [->|Hentry]; [vm_compute; discriminate|].
    apply elem_of_cons in Hentry as [->|Hentry]; [vm_compute; discriminate|].
    by apply not_elem_of_nil in Hentry.
Defined.

(** ** server.js: the collection over any sequence of requests of api.js *)

Lemma app_ids_grow js req st :
  map id (Server.clients st) `prefix_of` map id (Server.clients (snd (Server.app js req st))).
Proof.
  destruct req as [query| |clientId|clientData|clientId clientData|clientId]; simpl.
  - done.
  - done.
  - by destruct (Server.find clientId _).
  - destruct (Server.find _ _); simpl; [done|].
    rewrite map_app. by apply prefix_app_r.
  - destruct (Server.find clientId (Server.find_assign _ _ _)); simpl; [|done].
    by rewrite find_assign_ids.
  - unfold Server.soft_delete. destruct (Server.find clientId _); simpl; [|done].
    by rewrite find_assign_ids.
Qed.

(** X17.  No sequence of the requests that api.js issues (all of them
    under [/api/v1], where every DELETE meets the custom route) removes a
    client, moves one, or changes an identifier: the identifiers held
    before are, in their order, the first of those held after; and if they
    were pairwise distinct before, they are after. *)
Theorem clients_are_never_removed js (requests : list request) st :
  map id (Server.clients st) `prefix_of` map id (Server.clients (serve js requests st))
  ∧ (NoDup (map id (Server.clients st)) →
     NoDup (map id (Server.clients (serve js requests st)))).
Proof.
  unfold serve. revert st. induction requests as [|req requests IH]; intros st; simpl.
  - done.
  - destruct (IH (snd (Server.app js req st))) as [Hprefix Hdistinct]. split.
    + etrans; [apply (app_ids_grow js req st)|exact Hprefix].
    + intros Hnodup. apply Hdistinct. by apply app_ids_distinct.
Qed.

Lemma clients_are_never_removed_witness :
  let st := Sample.serving ["2024-12-16T10:00:00.000Z"] in
  let requests :=
    [PostClient Sample.john_data; DeleteClient (id Sample.jane);
     PatchClient "client-1" {[ "phone" := VStr "+64 21 987 6543" ]};
     DeleteClient "client-1"] in
  map id (Server.clients st) `prefix_of` map id (Server.clients (serve Sample.js requests st))
  ∧ NoDup (map id (Server.clients (serve Sample.js requests st))).
Proof.
  intros st requests.
  destruct (clients_are_never_removed Sample.js requests st) as [Hprefix Hdistinct].
  split; [exact Hprefix|]. apply Hdistinct. apply NoDup_singleton.
Defined.

(** * The store and the collection route of json-server *)

(** ** Numbers in the query string *)









(** ** The page size of a list request *)

Lemma slice_nil {A} (a b : Z) : slice a b ([] : list A) = [].
Proof. unfold slice. by rewrite drop_nil, take_nil. Qed.















(** ** Soft delete and identifiers that are numbers *)

Lemma store_find_refines clientId (cs : list client) :
  Store.find clientId (map Store.of_client cs) = Store.of_client <$> Server.find clientId cs
  ∧ Store.getById clientId (map Store.of_client cs)
    = Store.of_client <$> Server.find clientId cs.
Proof.
  unfold Store.find, Store.getById, Server.find.
  induction cs as [|c cs [IH1 IH2]]; [done|]. cbn [map List.find Store.of_client Store.doc_id Store.id_toString].
  destruct (decide (id c = clientId)) as [<-|Hid].
  - by rewrite !bool_decide_eq_true_2.
  - by rewrite !bool_decide_eq_false_2 by congruence.
Qed.

Lemma store_find_assign_refines clientId source (cs : list client) :
  Store.find_assign clientId source (map Store.of_client cs)
  = map Store.of_client (Server.find_assign clientId source cs).
Proof.
  induction cs as [|c cs IH]; [done|]. cbn [map Store.find_assign Server.find_assign Store.of_client Store.doc_id Store.fields].
  destruct (decide (id c = clientId)) as [<-|Hid].
  - by rewrite !bool_decide_eq_true_2.
  - rewrite !bool_decide_eq_false_2 by congruence. cbn [map]. by rewrite IH.
Qed.

(** On a store whose identifiers are strings, the custom route and GET by
    id are those of [Server]. *)
Lemma store_refines clientId st :
  Store.soft_delete (now (Server.time st)) clientId (map Store.of_client (Server.clients st))
  = (status (fst (Server.soft_delete clientId st)),
     map Store.of_client (Server.clients (snd (Server.soft_delete clientId st))))
  ∧ Store.show clientId (map Store.of_client (Server.clients st))
    = match Server.find clientId (Server.clients st) with
      | Some c => (200, Some (Store.of_client c))
      | None => (404, None)
      end.
Proof.
  unfold Store.soft_delete, Store.show, Server.soft_delete.
  destruct (store_find_refines clientId (Server.clients st)) as [-> ->].
  destruct (Server.find clientId (Server.clients st)); cbn; [|done].
  by rewrite store_find_assign_refines.
Qed.

(** The soft delete never finds a client stored under a number. *)
Lemma store_soft_delete_misses now clientId (docs : list Store.document) :
  (∀ d, d ∈ docs → Store.doc_id d ≠ Store.IdString clientId) →
  Store.soft_delete now clientId docs = (404, docs).
Proof.
  intros Hnone. unfold Store.soft_delete, Store.find.
  assert (List.find (λ d, bool_decide (Store.doc_id d = Store.IdString clientId)) docs = None)
    as ->; [|done].
  induction docs as [|d docs IH]; [done|]. simpl.
  rewrite bool_decide_eq_false_2 by (apply Hnone; left).
  apply IH. intros d' Hd'. apply Hnone. by right.
Qed.

(** C1.  John, stored by json-server under the number 1, is held by the
    store and returned by [GET /clients/1]; the soft delete of "1" does not
    find him: it answers 404 and leaves him as he was, still active and
    without [deleted_at], and [GET /clients/1] returns him unchanged. *)
Theorem soft_delete_misses_numbered_client :
  let docs := [Sample.john_numbered] in
  Store.show "1" docs = (200, Some Sample.john_numbered)
  ∧ Store.soft_delete "2024-12-16T10:00:00.000Z" "1" docs = (404, docs)
  ∧ Store.show "1" (snd (Store.soft_delete "2024-12-16T10:00:00.000Z" "1" docs))
    = (200, Some Sample.john_numbered)
  ∧ Store.fields Sample.john_numbered !! "status_code" = Some (VStr "active")
  ∧ Store.fields Sample.john_numbered !! "deleted_at" = None.
Proof. intros docs. repeat split; reflexivity. Qed.
